(** * Insurance claim ledger: normalisation, reconciliation and merge

    A shallow embedding of the extraction post-processing
    ([ai_extractor.py]) and of the upsert resolver ([email_reader.py],
    over the tables of [db.py]).

    Modelling conventions.
    - A Python dict produced by an extraction backend is a
      [gmap string pyval]; [d !! k] is [k in d], [get d k] is [d.get(k)].
    - A Python value is [None], a [str] or a number.  Numbers (ints and
      floats alike) are exact rationals [Qc]; rounding is not modelled.
    - Text is a [string] of bytes; the character classes ([isdigit],
      [isspace], [lower]) are those of the ASCII range.
    - A call that may raise returns an [option]: [None] is "raised".
    - The regular-expression engine, [datetime.strptime] and the printing
      of numbers are taken from a [Runtime]; the code that calls them is
      embedded as written. *)

From Stdlib Require Import QArith Qcanon ZArith Lia Ascii String List.
From stdpp Require Import base numbers strings list option gmap fin_maps.

Local Open Scope string_scope.

(** ** Python values *)

Inductive pyval : Type :=
| VNone
| VStr (s : string)
| VNum (q : Qc).

Global Instance pyval_eq_dec : EqDecision pyval.
Proof. solve_decision. Defined.

Global Instance pyval_inhabited : Inhabited pyval := populate VNone.

Abbreviation dict := (gmap string pyval).

(** [bool(v)] *)
Definition truthy (v : pyval) : bool :=
  match v with
  | VNone => false
  | VStr s => negb (bool_decide (s = ""))
  | VNum q => negb (bool_decide (q = 0%Qc))
  end.

(** [a or b] *)
Definition py_or (a b : pyval) : pyval := if truthy a then a else b.

(** [d.get(k)] and [d.get(k, dflt)] *)
Definition get (d : dict) (k : string) : pyval := default VNone (d !! k).
Definition get_or (d : dict) (k : string) (dflt : pyval) : pyval :=
  default dflt (d !! k).

(** [not d] for a dict *)
Definition dict_empty (d : dict) : bool := bool_decide (d = ∅).

(** [isinstance(v, str)] *)
Definition is_str (v : pyval) : bool :=
  match v with VStr _ => true | _ => false end.

(** The number held by a value; arithmetic on anything else raises. *)
Definition as_num (v : pyval) : option Qc :=
  match v with VNum q => Some q | _ => None end.

(** [max(0, x)] *)
Definition max0 (x : Qc) : Qc := if decide (0 < x)%Qc then x else 0%Qc.

(** [abs(x)] *)
Definition Qcabs (x : Qc) : Qc := if decide (x < 0)%Qc then (- x)%Qc else x.

(** ** Strings *)

Module Str.

Definition code (a : ascii) : N := N_of_ascii a.

Definition is_digit (a : ascii) : bool :=
  (48 <=? code a)%N && (code a <=? 57)%N.

Definition is_upper (a : ascii) : bool :=
  (65 <=? code a)%N && (code a <=? 90)%N.

Definition is_lower (a : ascii) : bool :=
  (97 <=? code a)%N && (code a <=? 122)%N.

Definition is_alpha (a : ascii) : bool := is_upper a || is_lower a.

(** [str.isspace] on one character: TAB..CR, FS..US and the blank *)
Definition is_space (a : ascii) : bool :=
  ((9 <=? code a)%N && (code a <=? 13)%N)
  || ((28 <=? code a)%N && (code a <=? 32)%N).

Definition lower_char (a : ascii) : ascii :=
  if is_upper a then ascii_of_N (code a + 32) else a.

Fixpoint lower (s : string) : string :=
  match s with
  | EmptyString => EmptyString
  | String a r => String (lower_char a) (lower r)
  end.

Fixpoint lstrip (s : string) : string :=
  match s with
  | EmptyString => EmptyString
  | String a r => if is_space a then lstrip r else s
  end.

Definition rstrip (s : string) : string :=
  String.rev (lstrip (String.rev s)).

Definition strip (s : string) : string := rstrip (lstrip s).

Fixpoint filter (p : ascii -> bool) (s : string) : string :=
  match s with
  | EmptyString => EmptyString
  | String a r => if p a then String a (filter p r) else filter p r
  end.

Fixpoint all (p : ascii -> bool) (s : string) : bool :=
  match s with
  | EmptyString => true
  | String a r => p a && all p r
  end.

Fixpoint any (p : ascii -> bool) (s : string) : bool :=
  match s with
  | EmptyString => false
  | String a r => p a || any p r
  end.

(** [s.isdigit()]: at least one character, all of them digits *)
Definition isdigit (s : string) : bool :=
  negb (bool_decide (s = "")) && all is_digit s.

Fixpoint is_prefix (p s : string) : bool :=
  match p, s with
  | EmptyString, _ => true
  | String a p', String b s' => bool_decide (a = b) && is_prefix p' s'
  | String _ _, EmptyString => false
  end.

(** [needle in hay] *)
Fixpoint contains (needle hay : string) : bool :=
  is_prefix needle hay
  || match hay with
     | EmptyString => false
     | String _ r => contains needle r
     end.

(** [s.replace(c, "")] for a one-character [c] *)
Definition remove_char (c : ascii) (s : string) : string :=
  filter (fun a => negb (bool_decide (a = c))) s.

(** [s.split(" ")[0]] *)
Fixpoint before_space (s : string) : string :=
  match s with
  | EmptyString => EmptyString
  | String a r => if bool_decide (a = " "%char) then EmptyString
                  else String a (before_space r)
  end.

(** [s in l] for a list of strings *)
Definition mem (s : string) (l : list string) : bool := bool_decide (s ∈ l).

End Str.

(** ** What the embedding takes from the Python runtime *)

Class Runtime : Type := {
  (** [re.sub(pattern, repl, s)] *)
  re_sub : string -> string -> string -> string;
  (** [re.search(pattern, text, flags)]: the groups 1, 2, ... of the first
      match, a group that took no part being the empty string; the flag
      is [re.IGNORECASE] *)
  re_search : string -> string -> bool -> option (list string);
  (** [datetime.strptime(s, fmt).strftime("%Y-%m-%d")], [None] on
      [ValueError] *)
  strptime_iso : string -> string -> option string;
  (** [str(x)] for a number *)
  num_repr : Qc -> string;
}.

(** [str(v)] *)
Definition py_str {rt : Runtime} (v : pyval) : string :=
  match v with
  | VNone => "None"
  | VStr s => s
  | VNum q => num_repr q
  end.

(** ** Field normaliser ([ai_extractor.py]) *)

Section Normalizer.
Context {rt : Runtime}.

Definition clean_none_string (val : pyval) : pyval :=
  match val with
  | VNone => VNone
  | VStr v =>
      let s := Str.lower (Str.strip v) in
      if Str.mem s ["none"; "n/a"; "null"; "unknown"; ""]
         || bool_decide (s = "")
      then VNone else val
  | _ => val
  end.

Definition noise_patterns : list (string * string) :=
  [ ("(?i)^details\s+patient\s+name\s+", "");
    ("(?i)^details\s+", "");
    ("(?i)^patient\s+name\s*[:\-]?\s*", "");
    ("(?i)^name\s+of\s+the\s+patient\s*[:\-]?\s*", "");
    ("(?i)\s+insured\s+empl$", "");
    ("(?i)\s+policy\s+no.*$", "");
    ("(?i)\s+main\s+member.*$", "");
    ("(?i)\s+insured$", "");
    ("(?i)\s+primary\s+member$", "");
    ("(?i)\s+beneficiary.*$", "");
    ("(?i)\s+patient$", "");
    ("(?i)hospital\s+payment\s*/\s*bulk\s+claim.*", "");
    ("(?i)summary\s+of\s+claims.*", "") ].

Definition clean_patient_name (name : pyval) : pyval :=
  match name with
  | VStr n =>
      if negb (truthy name) then name
      else
        let cleaned :=
          foldl (fun c pr => re_sub pr.1 pr.2 c) (Str.strip n) noise_patterns in
        VStr (Str.strip cleaned)
  | _ => name
  end.

Definition junk_values : list string :=
  ["erence"; "gross"; "claim no"; "ref no"; "remarks"; "bill"; "invoice";
   "none"; "unknown"; "null"; "details"; "sl no"; "status"].

Definition clean_claim_number (claim_no : pyval) : pyval :=
  match claim_no with
  | VStr c =>
      if negb (truthy claim_no) then claim_no
      else
        let val := Str.lower (Str.strip c) in
        if Str.mem val junk_values then VNone
        else if (String.length val <? 4)%nat && negb (Str.isdigit val) then VNone
        else VStr (Str.strip c)
  | _ => claim_no
  end.

Definition date_formats : list string :=
  ["%Y-%m-%d"; "%d/%m/%Y"; "%d-%m-%Y"; "%d %b %Y"; "%d %B %Y"; "%b %d, %Y";
   "%d-%m-%Y %H:%M:%S"; "%d/%m/%Y %H:%M:%S"; "%Y-%m-%d %H:%M:%S"].

(** the [for fmt in ...: try: return ... except ValueError: continue] loop *)
Fixpoint try_formats (fmts : list string) (s : string) : option string :=
  match fmts with
  | [] => None
  | fmt :: rest =>
      match strptime_iso s fmt with
      | Some d => Some d
      | None => try_formats rest s
      end
  end.

(** [None] (raised) on a number other than zero: it has no [strip]. *)
Definition normalize_date_str (date_str : pyval) : option pyval :=
  if negb (truthy date_str) then Some VNone
  else
    match date_str with
    | VStr raw =>
        let s := Str.strip raw in
        match try_formats date_formats s with
        | Some d => Some (VStr d)
        | None =>
            if Str.contains " " s then
              match try_formats ["%d-%m-%Y"; "%d/%m/%Y"; "%Y-%m-%d"]
                      (Str.before_space s) with
              | Some d => Some (VStr d)
              | None => Some (VStr s)
              end
            else Some (VStr s)
        end
    | _ => None
    end.

End Normalizer.

(** A runtime for texts in which no pattern finds anything and no date
    parses; every number prints as 0.0. *)
Definition blank_runtime : Runtime :=
  {| re_sub := fun _ _ s => s;
     re_search := fun _ _ _ => None;
     strptime_iso := fun _ _ => None;
     num_repr := fun _ => "0.0" |}.

(** ** Financial reconciliation ([apply_financial_formulas]) *)

(** [float(s)] for a string of digits and dots, which is all that the
    substitution [re.sub(r'[^\d.]', '', val)] leaves: [None] ([ValueError])
    unless there is at least one digit and at most one dot. *)
Module Float.

Fixpoint digits_value (acc : N) (s : string) : N :=
  match s with
  | EmptyString => acc
  | String a r => digits_value (10 * acc + (Str.code a - 48))%N r
  end.

(** the text before the first dot, and the text after it if there is one *)
Fixpoint split_dot (s : string) : string * option string :=
  match s with
  | EmptyString => (EmptyString, None)
  | String a r =>
      if bool_decide (a = "."%char) then (EmptyString, Some r)
      else let '(i, f) := split_dot r in (String a i, f)
  end.

Definition decimal (mantissa : N) (places : nat) : Qc :=
  Q2Qc (Z.of_N mantissa # Pos.pow 10 (Pos.of_nat places)).

Definition parse (s : string) : option Qc :=
  match split_dot s with
  | (i, None) =>
      if negb (bool_decide (i = "")) && Str.all Str.is_digit i
      then Some (Q2Qc (Z.of_N (digits_value 0 i) # 1))
      else None
  | (i, Some f) =>
      if Str.all Str.is_digit i && Str.all Str.is_digit f
         && negb (bool_decide (i = "") && bool_decide (f = ""))
      then
        if bool_decide (f = "") then Some (Q2Qc (Z.of_N (digits_value 0 i) # 1))
        else Some (decimal (digits_value 0 (i +:+ f)) (String.length f))
      else None
  end.

End Float.

Definition financial_fields : list string :=
  ["approved_amount"; "settled_amount"; "rejected_amount";
   "total_bill_amount"; "claim_amount"; "patient_payable_amount";
   "balance_amount"; "outstanding_amount"].

Definition text_fields : list string :=
  ["claim_number"; "patient_name"; "uhid_mrn"; "insurance_company";
   "tpa_name"; "remarks"].

Definition date_fields : list string :=
  ["claim_date"; "settlement_date"; "submitted_date"; "tat_followup_date"].

(** [for field in keys: data[field] = g(field, data.get(field))], the
    lookup telling a missing key from a stored [None] *)
Definition update_each (g : string -> option pyval -> pyval)
    (keys : list string) (data : dict) : dict :=
  foldl (fun d field => <[field := g field (d !! field)]> d) data keys.

(** [re.sub(r'[^\d.]', '', s)], then [float(v) if v else 0.0], with 0.0
    when [float] raises. *)
Definition float_or_zero (s : string) : Qc :=
  let v := Str.filter (fun a => Str.is_digit a || bool_decide (a = "."%char)) s in
  if bool_decide (v = "") then 0%Qc
  else match Float.parse v with
       | Some q => q
       | None => 0%Qc
       end.

(** The body of the number loop for one value [val = data.get(field, 0)]. *)
Definition coerce_financial (val : pyval) : pyval :=
  match val with
  | VStr s => VNum (float_or_zero s)
  | VNone => VNum 0
  | VNum q => VNum (* float(val) *) q
  end.

(** [v == 0] *)
Definition py_eq0 (v : pyval) : bool :=
  match v with VNum q => bool_decide (q = 0%Qc) | _ => false end.

(** [v and v > 0]; the comparison of a non-empty string with 0 raises *)
Definition and_gt0 (v : pyval) : option bool :=
  if negb (truthy v) then Some false
  else q ← as_num v; Some (bool_decide (0 < q)%Qc).

Section Reconciliation.
Context {rt : Runtime}.

(** 1. Normalize Numbers *)
Definition coerce_fields (data : dict) : dict :=
  update_each (fun _ o => coerce_financial (default (VNum 0) o))
    financial_fields data.

(** 1b. Sanitize text fields *)
Definition sanitize_text (field : string) (o : option pyval) : pyval :=
  let val := clean_none_string (default VNone o) in
  let val := if bool_decide (field = "patient_name") && truthy val
             then clean_patient_name val else val in
  let val := if bool_decide (field = "claim_number") && truthy val
             then clean_claim_number val else val in
  val.

Definition sanitize_text_fields (data : dict) : dict :=
  update_each sanitize_text text_fields data.

(** 2. Normalize Dates *)
Fixpoint normalize_date_fields (keys : list string) (data : dict) : option dict :=
  match keys with
  | [] => Some data
  | field :: rest =>
      if truthy (get data field) then
        v ← normalize_date_str (get data field);
        normalize_date_fields rest (<[field := v]> data)
      else normalize_date_fields rest data
  end.

(** 3. 'Total Bill' and 'Claim Amount' fallbacks *)
Definition backfill_totals (data : dict) : option dict :=
  data1 ←
    (if negb (truthy (get data "total_bill_amount"))
        || py_eq0 (get data "total_bill_amount")
     then
       c ← and_gt0 (get data "claim_amount");
       if c : bool then Some (<["total_bill_amount" := get data "claim_amount"]> data)
       else
         s ← and_gt0 (get data "settled_amount");
         if s : bool then Some (<["total_bill_amount" := get data "settled_amount"]> data)
         else Some data
     else Some data);
  if negb (truthy (get data1 "claim_amount")) || py_eq0 (get data1 "claim_amount")
  then Some (<["claim_amount" := get_or data1 "total_bill_amount" (VNum 0)]> data1)
  else Some data1.

(** 4. Mandatory business formulas *)
Definition business_formulas (data : dict) : option dict :=
  let total := get_or data "total_bill_amount" (VNum 0) in
  let approved := get_or data "approved_amount" (VNum 0) in
  let settled := get_or data "settled_amount" (VNum 0) in
  let status := get_or data "claim_status" (VStr "Pending") in
  t ← as_num total;
  a ← as_num approved;
  let calculated_rejected := max0 (t - a) in
  let rej := get_or data "rejected_amount" (VNum 0) in
  recompute ←
    (if py_eq0 rej then Some true
     else r ← as_num rej;
          Some (bool_decide (1 < Qcabs (r - calculated_rejected))%Qc));
  let data := if recompute : bool
              then <["rejected_amount" := VNum calculated_rejected]> data
              else data in
  let data := <["patient_payable_amount" := VNum (max0 (t - a))]> data in
  data ←
    (if bool_decide (status = VStr "Pending") then
       Some (<["patient_payable_amount" := VNum 0]>
              (<["rejected_amount" := VNum 0]>
                (<["settled_amount" := VNum 0]>
                  (<["approved_amount" := VNum 0]>
                    (<["balance_amount" := total]> data)))))
     else if bool_decide (status = VStr "Settled") then
       let data := <["balance_amount" := VNum 0]> data in
       s ← as_num settled;
       Some (<["patient_payable_amount" := VNum (max0 (t - s))]> data)
     else if bool_decide (status = VStr "Approved") then
       s ← as_num settled;
       Some (<["balance_amount" := VNum (max0 (a - s))]> data)
     else
       s ← as_num settled;
       Some (<["balance_amount" := VNum (max0 (a - s))]> data));
  Some (<["outstanding_amount" := get_or data "balance_amount" (VNum 0)]> data).

Definition apply_financial_formulas (data : dict) (text_content : string)
    : option dict :=
  if dict_empty data then Some data
  else
    data ← normalize_date_fields date_fields
              (sanitize_text_fields (coerce_fields data));
    data ← backfill_totals data;
    business_formulas data.

End Reconciliation.

(** ** Extraction orchestrator ([ai_extractor.py]) *)

Definition payment_keywords : list string :=
  ["payment advice"; "net payable"; "utr number"; "utr no"; "neft"; "rtgs";
   "amount disbursed"; "payment made"; "transaction reference";
   "remittance advice"; "payment processed"; "amount paid"; "eft";
   "electronic fund transfer"; "payment reference"; "paid to hospital";
   "successfully settled"].

(** [any(keyword in lower_text for keyword in keywords)] *)
Definition any_in (keywords : list string) (lower_text : string) : bool :=
  existsb (fun keyword => Str.contains keyword lower_text) keywords.

(** The test of [override_status_for_payment_advice] on the lower-cased
    text. *)
Definition payment_advice_detected (lower_text : string) : bool :=
  let has_payment := Str.contains "payment" lower_text in
  let has_advice := Str.contains "advice" lower_text in
  any_in payment_keywords lower_text || (has_payment && has_advice).

Definition override_status_for_payment_advice (data : dict) (text : string)
    : dict :=
  if dict_empty data || bool_decide (text = "") then data
  else
    let lower_text := Str.lower text in
    if payment_advice_detected lower_text
    then <["claim_status" := VStr "Settled"]> data
    else data.

(** The status tiers of the regex fallback, on the lower-cased text. *)
Definition regex_status (lower_text : string) : string :=
  if any_in ["payment settled"; "settlement processed"; "payment made";
             "amount disbursed"; "paid out"; "eft processed"; "settled";
             "payment advice"; "net payable"; "utr number"; "utr no"; "neft"]
       lower_text
  then "Settled"
  else if any_in ["claim approved"; "approval granted"; "approved for";
                  "sanctioned"; "authorized"] lower_text
  then "Approved"
  else if any_in ["claim rejected"; "claim denied"; "rejected due to";
                  "declined"; "repudiated"; "disallowed"; "not approved"]
            lower_text
  then "Rejected"
  else if any_in ["query raised"; "pending documents"; "clarification needed";
                  "additional information"; "deficiency"; "query";
                  "document required"] lower_text
  then "Queried"
  else if Str.contains "approved" lower_text then "Approved"
  else if Str.contains "rejected" lower_text then "Rejected"
  else "Pending".

(** What the two model backends answer for a text: the parsed JSON object,
    or nothing when the backend is not configured, the call fails or the
    answer does not parse. *)
Record backends : Type := {
  openai_reply : option dict;
  local_reply : option dict;
}.

(** How a call ends: it raises, or returns a dict or [None]. *)
Inductive outcome : Type :=
| Raised (detail : string)
| Returned (r : option dict).

Section Orchestrator.
Context {rt : Runtime}.

Definition validate_extraction (data : dict) : bool :=
  if dict_empty data then false
  else
    let patient_name := get data "patient_name" in
    if truthy patient_name then
      let patient_name_str := Str.strip (py_str patient_name) in
      if Str.isdigit (Str.remove_char " " (Str.remove_char "-"
                        (Str.remove_char "." patient_name_str)))
      then false
      else if (String.length patient_name_str <? 2)%nat then false
      else if negb (Str.any Str.is_alpha patient_name_str) then false
      else true
    else true.

(** group [n] (counted from 1) of a match *)
Definition group (n : nat) (m : list string) : string := nth (n - 1) m "".

(** [find_val(pattern, text)] *)
Definition find_val (pattern text : string) : pyval :=
  match re_search pattern text true with
  | Some m => VStr (Str.remove_char "," (Str.strip (group 1 m)))
  | None => VNone
  end.

(** [find_val(pattern, text, float)] *)
Definition find_val_float (pattern text : string) : pyval :=
  match re_search pattern text true with
  | Some m => VNum (float_or_zero (Str.strip (group 1 m)))
  | None => VNone
  end.

Definition KNOWN_TPA_MAP : list (string * string) :=
  [ ("GOOD\s+HEALTH\s+INSURANCE\s+TPA", "Good Health Insurance TPA Limited");
    ("HEALTH\s*INDIA\s+INSURANCE\s+TPA",
     "Health India Insurance TPA Services Pvt. Ltd.");
    ("HEALTHINDIA\s+INSURANCE\s+TPA",
     "Health India Insurance TPA Services Pvt. Ltd.");
    ("MEDI\s*ASSIST", "Medi Assist Insurance TPA Pvt. Ltd.");
    ("PARAMOUNT\s+HEALTH",
     "Paramount Health Services & Insurance TPA Pvt. Ltd.");
    ("VIDAL\s+HEALTH", "Vidal Health Insurance TPA Pvt. Ltd.");
    ("MD\s+INDIA", "MDIndia Health Insurance TPA Pvt. Ltd.");
    ("HERITAGE\s+HEALTH", "Heritage Health Insurance TPA Pvt. Ltd.");
    ("FAMILY\s+HEALTH\s+PLAN", "Family Health Plan Insurance TPA Ltd.");
    ("RAKSHA\s+HEALTH", "Raksha Health Insurance TPA Pvt. Ltd.");
    ("ERICSON\s+INSURANCE\s+TPA", "Ericson Insurance TPA Pvt. Ltd.");
    ("UNITED\s+HEALTH\s+CARE",
     "United Health Care Parekh Insurance TPA Pvt. Ltd.");
    ("VIPUL\s+MEDCORP", "Vipul MedCorp Insurance TPA Pvt. Ltd.") ].

(** the loop over [KNOWN_TPA_MAP], leaving at the first hit *)
Fixpoint known_tpa (m : list (string * string)) (text : string) (data : dict)
    : dict :=
  match m with
  | [] => data
  | (pattern, standardized_name) :: rest =>
      if bool_decide (is_Some (re_search pattern text true))
      then <["tpa_name" := VStr standardized_name]> data
      else known_tpa rest text data
  end.

Definition newline : string := String (ascii_of_N 10) "".

(** 1. Known TPA list and 2. dynamic TPA pattern, both tried only when
    the labelled value is missing *)
Definition tpa_known_or_dynamic (text : string) (data : dict) : dict :=
  if negb (truthy (get data "tpa_name")) then
    let data := known_tpa KNOWN_TPA_MAP text data in
    match re_search "((?:[A-Za-z0-9\.\&]+\s+){1,6})(TPA|Third Party Administrator)(\s+(?:Limited|Services|Pvt|Ltd|Private|\.|&)+)?"
            text true with
    | Some m =>
        let full_name := Str.strip (group 1 m +:+ group 2 m +:+ group 3 m) in
        if (5 <? String.length full_name)%nat
           && (String.length full_name <? 60)%nat
        then
          if negb (Str.mem (Str.strip (Str.lower full_name))
                     ["insurance tpa"; "health insurance tpa"])
          then <["tpa_name" := VStr full_name]> data
          else data
        else data
    | None => data
    end
  else data.

(** 1.5 The subject line of the mail *)
Definition tpa_subject_line (text : string) (data : dict) : dict :=
  if negb (truthy (get data "tpa_name")) then
    match re_search "Subject:.*?([A-Za-z \.]{4,}\sTPA\b)" text true with
    | Some m => <["tpa_name" := VStr (Str.strip (group 1 m))]> data
    | None => data
    end
  else data.

(** 2. Improved TPA regex *)
Definition tpa_improved (text : string) (data : dict) : dict :=
  if negb (truthy (get data "tpa_name")) then
    match re_search "([A-Za-z \.]{4,50}\s?TPA\s+(?:Services|Pvt|Private|Limited|Ltd|\.|[ ])+)"
            text true with
    | Some m =>
        let candidate := Str.strip (group 1 m) in
        if (String.length candidate <? 50)%nat
        then <["tpa_name" := VStr candidate]> data
        else data
    | None => data
    end
  else data.

(** 3. Catch-all TPA regex, case-sensitive *)
Definition tpa_catch_all (text : string) (data : dict) : dict :=
  if negb (truthy (get data "tpa_name")) then
    match re_search "([A-Z][A-Za-z\s\.]+\bTPA\b(?:[A-Za-z\s\.]*)?)" text false with
    | Some m =>
        let candidate := Str.strip (group 1 m) in
        if (3 <? String.length candidate)%nat
           && (String.length candidate <? 60)%nat
           && negb (Str.contains newline candidate)
        then <["tpa_name" := VStr candidate]> data
        else data
    | None => data
    end
  else data.

(** The administrator name: the labelled value, else the known names and
    the dynamic pattern, else the subject line, else two broader
    patterns. *)
Definition resolve_tpa (text : string) (data : dict) : dict :=
  tpa_catch_all text
    (tpa_improved text
      (tpa_subject_line text
        (tpa_known_or_dynamic text data))).

Definition amount_tail : string :=
  "\s*(?:Amount|Amt|Sum)?(?:\s*\(INR\))?\s*[:\-]?\s*(?:INR|Rs\.?)?\s*([0-9,]+(?:\.\d+)?)".

Definition date_tail : string :=
  "\s*Date\s*[:\-\s]+\s*(\d{4}[-/]\d{2}[-/]\d{2}|\d{2}[-/]\d{2}[-/]\d{4}|\d{2}\s+[A-Za-z]{3}\s+\d{4})(?:\b|\s+\d{2}:\d{2})".

Definition extract_claim_data_regex (text : string) : option dict :=
  let data : dict := ∅ in
  let data := <["patient_name" :=
    find_val "(?:Patient|Insured|Member)\s*(?:Name)?\s*[:\-\s]+\s*([A-Za-z\s\.]{3,50})(?:\s|[\r\n])" text]> data in
  let data := <["uhid_mrn" :=
    find_val "(?:UHID|MRN|Reg|Hosp)\s*(?:No|Number|ID)?\s*[:\-\s]+\s*([A-Za-z0-9\-/]+)" text]> data in
  let data := <["claim_number" :=
    find_val "(?:Claim (?:Intimation )?(?:Number|No\.?|Id)|Claim #|CCN#?|Claim Ref)\s*[:\-]?\s*([A-Za-z0-9\-\_\/]+)" text]> data in
  let data := <["insurance_company" :=
    find_val "(?:Insurance(?: Company| Co\.?| Corp\.?)?|Insurer|Payer)\s*[:\-]\s*([^\n\r]+)" text]> data in
  let data := <["tpa_name" :=
    find_val "(?:TPA|Third Party Administrator)\s*[:\-]\s*([^\n\r]+)" text]> data in
  let data := resolve_tpa text data in
  let lower_text := Str.lower text in
  let data := <["claim_status" := VStr (regex_status lower_text)]> data in
  let settlement_date :=
    find_val ("(?:Settlement|Payment|EFT|Discharge)" +:+ date_tail) text in
  data ←
    (if truthy settlement_date then
       settled_on ← normalize_date_str settlement_date;
       submitted_on ← normalize_date_str settlement_date;
       Some (<["submitted_date" := submitted_on]>
              (<["settlement_date" := settled_on]> data))
     else Some data);
  let claim_date :=
    find_val ("(?:Admission|DOA|Hospitalization|Claim\s+Submission)" +:+ date_tail)
      text in
  data ←
    (if truthy claim_date then
       claimed_on ← normalize_date_str claim_date;
       Some (<["claim_date" := claimed_on]> data)
     else Some data);
  let data := <["approved_amount" :=
    py_or (find_val_float
             ("(?:Approved|Payable|Eligible|Admissible|Settled for)" +:+ amount_tail)
             text) (VNum 0)]> data in
  let data := <["settled_amount" :=
    py_or (find_val_float
             ("(?:Settled(?: for)?|Paid|Net Payable|Disbursed)" +:+ amount_tail)
             text) (VNum 0)]> data in
  let data := <["rejected_amount" :=
    py_or (find_val_float
             ("(?:Rejected|Non-Payable|Deducted|Disallowed)" +:+ amount_tail)
             text) (VNum 0)]> data in
  let total_bill :=
    py_or (find_val_float
             "(?:Total|Bill|Invoice|Claimed|Gross|Net)\s*(?:Bill|Amount|Total|Sum|amount of|payable)?(?:\s*\(INR\))?\s*[:\-]?\s*(?:INR|Rs\.?|\$)?\s*([0-9,]+(?:\.\d+)?)"
             text) (VNum 0) in
  let data := <["total_bill_amount" := total_bill]> data in
  let data := <["claim_amount" := total_bill]> data in
  Some data.

(** One model strategy: the reply is validated, passed through [post]
    and reconciled; nothing comes out when there is no reply, when it
    fails validation or when a step raises (the enclosing
    [except Exception] moves on to the next strategy). *)
Definition model_strategy (reply : option dict) (post : dict -> dict)
    (text_content : string) : option dict :=
  data ← reply;
  if validate_extraction data
  then apply_financial_formulas (post data) text_content
  else None.

Definition extract_claim_data (b : backends) (text_content : string)
    : outcome :=
  if bool_decide (text_content = "")
     || bool_decide (Str.strip text_content = "")
  then Returned None
  else
    match model_strategy (openai_reply b)
            (fun data => override_status_for_payment_advice data text_content)
            text_content with
    | Some r => Returned (Some r)
    | None =>
        match model_strategy (local_reply b) (fun data => data) text_content with
        | Some r => Returned (Some r)
        | None =>
            match data ← extract_claim_data_regex text_content;
                  apply_financial_formulas data text_content with
            | Some r => Returned (Some r)
            | None => Raised "Exception"
            end
        end
    end.

End Orchestrator.

(** ** The ledger ([db.py]) *)

(** A row of [claims].  A column holds what was last assigned to it;
    [VNone] is NULL.  The uniqueness constraints of the table are those of
    the store and are not modelled. *)
Module Claim.

Record t : Type := mk {
  email_uid : string;
  email_date : option Z;
  patient_name : pyval;
  uhid_mrn : pyval;
  insurance_company : pyval;
  tpa_name : pyval;
  claim_number : pyval;
  claim_status : pyval;
  claim_date : pyval;
  settlement_date : pyval;
  submitted_date : pyval;
  claim_type : pyval;
  approved_amount : pyval;
  settled_amount : pyval;
  rejected_amount : pyval;
  outstanding_amount : pyval;
  total_bill_amount : pyval;
  claim_amount : pyval;
  patient_payable_amount : pyval;
  insurance_coverage_percent : pyval;
  balance_amount : pyval;
  remarks : pyval;
  tat_followup_date : pyval;
  processed_at : Z;
}.

(** [getattr(row, field)] on the amount columns *)
Definition getattr (field : string) (c : t) : pyval :=
  if bool_decide (field = "approved_amount") then approved_amount c
  else if bool_decide (field = "settled_amount") then settled_amount c
  else if bool_decide (field = "rejected_amount") then rejected_amount c
  else if bool_decide (field = "outstanding_amount") then outstanding_amount c
  else if bool_decide (field = "total_bill_amount") then total_bill_amount c
  else if bool_decide (field = "claim_amount") then claim_amount c
  else if bool_decide (field = "patient_payable_amount")
       then patient_payable_amount c
  else if bool_decide (field = "insurance_coverage_percent")
       then insurance_coverage_percent c
  else if bool_decide (field = "balance_amount") then balance_amount c
  else VNone.

(** [setattr(row, field, val)] on the amount columns *)
Definition setattr (field : string) (val : pyval) (c : t) : t :=
  let upd (name : string) (old : pyval) : pyval :=
    if bool_decide (field = name) then val else old in
  {| email_uid := email_uid c;
     email_date := email_date c;
     patient_name := patient_name c;
     uhid_mrn := uhid_mrn c;
     insurance_company := insurance_company c;
     tpa_name := tpa_name c;
     claim_number := claim_number c;
     claim_status := claim_status c;
     claim_date := claim_date c;
     settlement_date := settlement_date c;
     submitted_date := submitted_date c;
     claim_type := claim_type c;
     approved_amount := upd "approved_amount" (approved_amount c);
     settled_amount := upd "settled_amount" (settled_amount c);
     rejected_amount := upd "rejected_amount" (rejected_amount c);
     outstanding_amount := upd "outstanding_amount" (outstanding_amount c);
     total_bill_amount := upd "total_bill_amount" (total_bill_amount c);
     claim_amount := upd "claim_amount" (claim_amount c);
     patient_payable_amount :=
       upd "patient_payable_amount" (patient_payable_amount c);
     insurance_coverage_percent :=
       upd "insurance_coverage_percent" (insurance_coverage_percent c);
     balance_amount := upd "balance_amount" (balance_amount c);
     remarks := remarks c;
     tat_followup_date := tat_followup_date c;
     processed_at := processed_at c |}.

End Claim.

(** A row of [claim_history]. *)
Module ClaimHistory.

Record t : Type := mk {
  claim_number : pyval;
  email_uid : string;
  email_date : Z;
  amount_received : pyval;
  total_settled_so_far : pyval;
  status : pyval;
  remarks : string;
}.

End ClaimHistory.

(** A row of [processing_logs]. *)
Module ProcessingLog.

Record t : Type := mk {
  email_subject : string;
  status : string;
  error_message : option string;
  timestamp : Z;
}.

End ProcessingLog.

(** The three tables, each in insertion order. *)
Record store : Type := {
  claims : list Claim.t;
  history : list ClaimHistory.t;
  logs : list ProcessingLog.t;
}.

(** [db.add(log); db.commit()] *)
Definition add_log (entry : ProcessingLog.t) (db : store) : store :=
  {| claims := claims db; history := history db; logs := logs db ++ [entry] |}.

(** ** Merge and upsert resolver ([process_single_email]) *)

(** The amount columns that a merge may overwrite, in the order of the
    loop. *)
Definition merged_amount_fields : list string :=
  ["approved_amount"; "settled_amount"; "rejected_amount";
   "outstanding_amount"; "total_bill_amount"; "patient_payable_amount";
   "insurance_coverage_percent"; "balance_amount"].

(** [val is not None and val != 0] *)
Definition provided_nonzero (val : pyval) : bool :=
  negb (bool_decide (val = VNone)) && negb (py_eq0 val).

Section Resolver.
Context {rt : Runtime}.

(** [not p_name or str(p_name).lower() in ["none", "null", "unknown", ""]] *)
Definition name_missing (p_name : pyval) : bool :=
  negb (truthy p_name)
  || Str.mem (Str.lower (py_str p_name)) ["none"; "null"; "unknown"; ""].

(** A missing patient name is replaced by a placeholder, in the
    variable and in the draft. *)
Definition placeholder_name (p_name : pyval) (extracted_data : dict)
    : pyval * dict :=
  if name_missing p_name
  then (VStr " Hospital Payment / Bulk Claim",
        <["patient_name" := VStr " Hospital Payment / Bulk Claim"]>
          extracted_data)
  else (p_name, extracted_data).

(** The three lookups, first hit wins: by message identifier, by claim
    number, by patient name and hospital id.  The result is the position
    of the row. *)
Definition find_existing (db : store) (uid : string) (claim_no p_name : pyval)
    (extracted_data : dict) : option (nat * Claim.t) :=
  let existing_claim :=
    list_find (fun c => Claim.email_uid c = uid) (claims db) in
  let existing_claim :=
    if bool_decide (existing_claim = None) && truthy claim_no
    then list_find (fun c => Claim.claim_number c = claim_no) (claims db)
    else existing_claim in
  if bool_decide (existing_claim = None) then
    let uhid := get extracted_data "uhid_mrn" in
    if truthy p_name && truthy uhid
    then list_find (fun c => Claim.patient_name c = p_name
                             /\ Claim.uhid_mrn c = uhid) (claims db)
    else existing_claim
  else existing_claim.

(** The amount loop of the update branch. *)
Definition merge_amounts (extracted_data : dict) (existing_claim : Claim.t)
    : Claim.t :=
  foldl (fun c field =>
           let val := get extracted_data field in
           if provided_nonzero val then Claim.setattr field val c else c)
    existing_claim merged_amount_fields.

(** The update branch: the stored row after the field-by-field merge. *)
Definition merge_claim (existing_claim : Claim.t) (uid : string)
    (email_date now : Z) (p_name : pyval) (extracted_data : dict) : Claim.t :=
  let curr_name := Str.lower (py_str (py_or (Claim.patient_name existing_claim)
                                            (VStr ""))) in
  let patient_name :=
    if truthy p_name
       && negb (bool_decide (p_name = Claim.patient_name existing_claim))
    then
      if Str.contains "hospital payment" curr_name
         || Str.contains "details" curr_name
         || Str.contains "insured" curr_name
      then p_name
      else p_name
    else Claim.patient_name existing_claim in
  let uhid_mrn :=
    py_or (get extracted_data "uhid_mrn") (Claim.uhid_mrn existing_claim) in
  let insurance_company :=
    py_or (get extracted_data "insurance_company")
          (Claim.insurance_company existing_claim) in
  let new_claim_no := get extracted_data "claim_number" in
  let curr_claim_no :=
    Str.lower (py_str (py_or (Claim.claim_number existing_claim) (VStr ""))) in
  let known_garbage_nos :=
    ["erence"; "gross"; "none"; "null"; "unknown"; "ref"; "clm"] in
  let claim_number :=
    if truthy new_claim_no
       && negb (Str.mem (Str.lower (py_str new_claim_no))
                  ["none"; "n/a"; "null"; ""])
    then new_claim_no
    else if Str.mem curr_claim_no known_garbage_nos
            || (String.length curr_claim_no <? 4)%nat
    then VNone
    else Claim.claim_number existing_claim in
  let new_tpa := get extracted_data "tpa_name" in
  let tpa_name :=
    if truthy new_tpa then new_tpa
    else if negb (truthy (Claim.tpa_name existing_claim))
    then insurance_company
    else Claim.tpa_name existing_claim in
  let updated :=
    {| Claim.email_uid := uid;
       Claim.email_date := Some email_date;
       Claim.patient_name := patient_name;
       Claim.uhid_mrn := uhid_mrn;
       Claim.insurance_company := insurance_company;
       Claim.tpa_name := tpa_name;
       Claim.claim_number := claim_number;
       Claim.claim_status :=
         py_or (get extracted_data "claim_status")
               (Claim.claim_status existing_claim);
       Claim.claim_date :=
         py_or (get extracted_data "claim_date")
               (Claim.claim_date existing_claim);
       Claim.settlement_date :=
         py_or (get extracted_data "settlement_date")
               (Claim.settlement_date existing_claim);
       Claim.submitted_date :=
         py_or (get extracted_data "submitted_date")
               (Claim.submitted_date existing_claim);
       Claim.claim_type :=
         py_or (get extracted_data "claim_type")
               (Claim.claim_type existing_claim);
       Claim.approved_amount := Claim.approved_amount existing_claim;
       Claim.settled_amount := Claim.settled_amount existing_claim;
       Claim.rejected_amount := Claim.rejected_amount existing_claim;
       Claim.outstanding_amount := Claim.outstanding_amount existing_claim;
       Claim.total_bill_amount := Claim.total_bill_amount existing_claim;
       Claim.claim_amount := Claim.claim_amount existing_claim;
       Claim.patient_payable_amount :=
         Claim.patient_payable_amount existing_claim;
       Claim.insurance_coverage_percent :=
         Claim.insurance_coverage_percent existing_claim;
       Claim.balance_amount := Claim.balance_amount existing_claim;
       Claim.remarks := Claim.remarks existing_claim;
       Claim.tat_followup_date := Claim.tat_followup_date existing_claim;
       Claim.processed_at := Claim.processed_at existing_claim |} in
  let updated := merge_amounts extracted_data updated in
  {| Claim.email_uid := Claim.email_uid updated;
     Claim.email_date := Claim.email_date updated;
     Claim.patient_name := Claim.patient_name updated;
     Claim.uhid_mrn := Claim.uhid_mrn updated;
     Claim.insurance_company := Claim.insurance_company updated;
     Claim.tpa_name := Claim.tpa_name updated;
     Claim.claim_number := Claim.claim_number updated;
     Claim.claim_status := Claim.claim_status updated;
     Claim.claim_date := Claim.claim_date updated;
     Claim.settlement_date := Claim.settlement_date updated;
     Claim.submitted_date := Claim.submitted_date updated;
     Claim.claim_type := Claim.claim_type updated;
     Claim.approved_amount := Claim.approved_amount updated;
     Claim.settled_amount := Claim.settled_amount updated;
     Claim.rejected_amount := Claim.rejected_amount updated;
     Claim.outstanding_amount := Claim.outstanding_amount updated;
     Claim.total_bill_amount := Claim.total_bill_amount updated;
     Claim.claim_amount := Claim.claim_amount updated;
     Claim.patient_payable_amount := Claim.patient_payable_amount updated;
     Claim.insurance_coverage_percent :=
       Claim.insurance_coverage_percent updated;
     Claim.balance_amount := Claim.balance_amount updated;
     Claim.remarks :=
       py_or (get extracted_data "remarks") (Claim.remarks updated);
     Claim.tat_followup_date :=
       py_or (get extracted_data "tat_followup_date")
             (Claim.tat_followup_date updated);
     Claim.processed_at := now |}.

(** The history row of an update, unless one is already there for the
    claim number and the message. *)
Definition log_update_history (existing_claim : Claim.t) (uid : string)
    (email_date : Z) (extracted_data : dict) (h : list ClaimHistory.t)
    : list ClaimHistory.t :=
  match list_find (fun e => ClaimHistory.claim_number e
                              = Claim.claim_number existing_claim
                            /\ ClaimHistory.email_uid e = uid) h with
  | Some _ => h
  | None =>
      h ++ [ {| ClaimHistory.claim_number := Claim.claim_number existing_claim;
                ClaimHistory.email_uid := uid;
                ClaimHistory.email_date := email_date;
                ClaimHistory.total_settled_so_far :=
                  Claim.settled_amount existing_claim;
                ClaimHistory.amount_received :=
                  get_or extracted_data "settled_amount" (VNum 0);
                ClaimHistory.status := Claim.claim_status existing_claim;
                ClaimHistory.remarks :=
                  "Update: " +:+ py_str (get_or extracted_data "remarks"
                                           (VStr "")) |} ]
  end.

(** The row of a new claim; [claim_amount] is not passed to the
    constructor and takes the default of its column. *)
Definition new_claim (uid : string) (email_date now : Z)
    (extracted_data : dict) : Claim.t :=
  {| Claim.email_uid := uid;
     Claim.email_date := Some email_date;
     Claim.patient_name := get extracted_data "patient_name";
     Claim.uhid_mrn := get extracted_data "uhid_mrn";
     Claim.insurance_company := get extracted_data "insurance_company";
     Claim.tpa_name := py_or (get extracted_data "tpa_name")
                             (get extracted_data "insurance_company");
     Claim.claim_number := get extracted_data "claim_number";
     Claim.claim_status := get extracted_data "claim_status";
     Claim.claim_date := get extracted_data "claim_date";
     Claim.settlement_date := get extracted_data "settlement_date";
     Claim.submitted_date := get extracted_data "submitted_date";
     Claim.claim_type := py_or (get extracted_data "claim_type")
                               (VStr "General");
     Claim.approved_amount := get_or extracted_data "approved_amount" (VNum 0);
     Claim.settled_amount := get_or extracted_data "settled_amount" (VNum 0);
     Claim.rejected_amount := get_or extracted_data "rejected_amount" (VNum 0);
     Claim.outstanding_amount :=
       get_or extracted_data "outstanding_amount" (VNum 0);
     Claim.total_bill_amount :=
       get_or extracted_data "total_bill_amount" (VNum 0);
     Claim.claim_amount := VNum 0;
     Claim.patient_payable_amount :=
       get_or extracted_data "patient_payable_amount" (VNum 0);
     Claim.insurance_coverage_percent :=
       get_or extracted_data "insurance_coverage_percent" (VNum 0);
     Claim.balance_amount := get_or extracted_data "balance_amount" (VNum 0);
     Claim.remarks := get extracted_data "remarks";
     Claim.tat_followup_date := get extracted_data "tat_followup_date";
     Claim.processed_at := now |}.

Definition log_entry (subject status : string) (detail : option string)
    (now : Z) : ProcessingLog.t :=
  {| ProcessingLog.email_subject := subject;
     ProcessingLog.status := status;
     ProcessingLog.error_message := detail;
     ProcessingLog.timestamp := now |}.

(** One message, from the result of the extraction on: [uid] is
    [str(uid)], [email_date] the date of the message, [now] the clock,
    [extraction] how [extract_claim_data(combined_text)] ended.  The
    result is the committed store; the queries and the commit themselves
    are taken not to fail. *)
Definition process_single_email (uid : string) (email_date now : Z)
    (subject : string) (extraction : outcome) (db : store) : store :=
  match extraction with
  | Raised detail => add_log (log_entry subject "Error" (Some detail) now) db
  | Returned None =>
      add_log (log_entry subject "Failed"
                 (Some "AI Extraction returned empty") now) db
  | Returned (Some extracted_data) =>
      if dict_empty extracted_data then
        add_log (log_entry subject "Failed"
                   (Some "AI Extraction returned empty") now) db
      else
        let p_name := get extracted_data "patient_name" in
        let claim_no := get extracted_data "claim_number" in
        if name_missing p_name && negb (truthy claim_no) then
          add_log (log_entry subject "Skipped"
                     (Some "No Patient Name (Validation Failed)") now) db
        else
          let '(p_name, extracted_data) :=
            placeholder_name p_name extracted_data in
          match find_existing db uid claim_no p_name extracted_data with
          | Some (i, existing_claim) =>
              if match Claim.email_date existing_claim with
                 | Some stored => bool_decide (email_date < stored)%Z
                 | None => false
                 end
              then
                add_log (log_entry subject "Skipped"
                           (Some "Newer data exists") now) db
              else
                let existing_claim :=
                  merge_claim existing_claim uid email_date now p_name
                    extracted_data in
                add_log (log_entry subject "Success" None now)
                  {| claims := <[i := existing_claim]> (claims db);
                     history := log_update_history existing_claim uid
                                  email_date extracted_data (history db);
                     logs := logs db |}
          | None =>
              if negb (truthy claim_no)
                 && (negb (truthy p_name)
                     || negb (truthy (get extracted_data "uhid_mrn")))
              then db
              else if negb (truthy claim_no
                            && bool_decide (get extracted_data "claim_status"
                                            = VStr "Settled"))
                      && (negb (truthy p_name)
                          && negb (truthy (get extracted_data "uhid_mrn")))
              then db
              else
                let claim := new_claim uid email_date now extracted_data in
                add_log (log_entry subject "Success" None now)
                  {| claims := claims db ++ [claim];
                     history :=
                       history db
                       ++ [ {| ClaimHistory.claim_number :=
                                 Claim.claim_number claim;
                               ClaimHistory.email_uid := uid;
                               ClaimHistory.email_date := email_date;
                               ClaimHistory.total_settled_so_far :=
                                 Claim.settled_amount claim;
                               ClaimHistory.amount_received :=
                                 Claim.settled_amount claim;
                               ClaimHistory.status := Claim.claim_status claim;
                               ClaimHistory.remarks := "Initial Create" |} ];
                     logs := logs db |}
          end
  end.

End Resolver.

(** ** Date correction ([correct_extracted_dates]) *)

Section DateCorrection.
Context {rt : Runtime}.

Definition admission_patterns : list string :=
  ["(?:Admission|Hosp|Birth|Policy)\s*Date\s*[:\-\s]+\s*(\d{4}[-/]\d{2}[-/]\d{2}|\d{2}[-/]\d{2}[-/]\d{4}|\d{2}\s+[A-Za-z]{3}\s+\d{4})";
   "DOA\s*[:\-\s]+\s*(\d{4}[-/]\d{2}[-/]\d{2}|\d{2}[-/]\d{2}[-/]\d{4}|\d{2}\s+[A-Za-z]{3}\s+\d{4})"].

(** the loop over [admission_patterns]: whether some pattern finds a date
    whose normal form is truthy and equals [normalized_submitted]; it stops
    at the first such pattern.  The date found is a string, on which
    [normalize_date_str] does not raise. *)
Fixpoint is_bad_date (pats : list string) (text : string)
    (normalized_submitted : pyval) : bool :=
  match pats with
  | [] => false
  | pat :: rest =>
      match re_search pat text true with
      | Some m =>
          let bad_date_str := Str.strip (Str.remove_char "," (group 1 m)) in
          let norm_bad := default VNone (normalize_date_str (VStr bad_date_str)) in
          if truthy norm_bad && bool_decide (norm_bad = normalized_submitted)
          then true
          else is_bad_date rest text normalized_submitted
      | None => is_bad_date rest text normalized_submitted
      end
  end.

Definition correct_extracted_dates (data : dict) (text : string) : option dict :=
  if dict_empty data || bool_decide (text = "") then Some data
  else
    let submitted_date := get data "submitted_date" in
    normalized_submitted ←
      (if truthy submitted_date then normalize_date_str submitted_date
       else Some VNone);
    let bad := is_bad_date admission_patterns text normalized_submitted in
    match re_search ("(?:Settlement|Payment|Discharge)" +:+ date_tail) text true with
    | Some m =>
        let better_date := Str.strip (Str.remove_char "," (group 1 m)) in
        Some (<["submitted_date" := VStr better_date]> data)
    | None =>
        if bad then Some (<["submitted_date" := VNone]> data)
        else Some data
    end.

End DateCorrection.

(** ** Start-up migration of the rows ([check_and_migrate]) *)

(** The data statements of the migration, on the rows of a [claims] table
    that has all its columns.  A text column holds a string or NULL, an
    amount column a number or NULL; a comparison with NULL selects
    nothing. *)
Module Migration.

(** [col = 0] *)
Definition is_zero (v : pyval) : bool :=
  match v with VNum q => bool_decide (q = 0%Qc) | _ => false end.

(** [col IS NULL] *)
Definition is_null (v : pyval) : bool := bool_decide (v = VNone).

(** [a > b] *)
Definition gt (a b : pyval) : bool :=
  match a, b with
  | VNum x, VNum y => bool_decide (y < x)%Qc
  | _, _ => false
  end.

(** [a - b] *)
Definition minus (a b : pyval) : pyval :=
  match a, b with
  | VNum x, VNum y => VNum (x - y)
  | _, _ => VNone
  end.

(** [col LIKE '%pattern%'] for a pattern without wildcards of its own *)
Definition like_contains (v : pyval) (pattern : string) : bool :=
  match v with VStr s => Str.contains pattern s | _ => false end.

Definition is_settled (c : Claim.t) : bool :=
  bool_decide (Claim.claim_status c = VStr "Settled").

(** [UPDATE claims SET balance_amount = 0, outstanding_amount = 0
     WHERE claim_status = 'Settled'] *)
Definition zero_settled_balance (c : Claim.t) : Claim.t :=
  if is_settled c
  then Claim.setattr "outstanding_amount" (VNum 0)
         (Claim.setattr "balance_amount" (VNum 0) c)
  else c.

(** [UPDATE claims SET patient_payable_amount = total_bill_amount -
     settled_amount WHERE claim_status = 'Settled' AND total_bill_amount >
     settled_amount] *)
Definition settled_patient_payable (c : Claim.t) : Claim.t :=
  if is_settled c
     && gt (Claim.total_bill_amount c) (Claim.settled_amount c)
  then Claim.setattr "patient_payable_amount"
         (minus (Claim.total_bill_amount c) (Claim.settled_amount c)) c
  else c.

(** the [WHERE] clause of the clean-up [DELETE] *)
Definition is_junk (c : Claim.t) : bool :=
  like_contains (Claim.patient_name c) "Hospital Payment / Bulk Claim"
  && (is_null (Claim.claim_number c)
      || bool_decide (Claim.claim_number c = VStr ""))
  && (is_zero (Claim.settled_amount c) || is_null (Claim.settled_amount c))
  && (is_zero (Claim.total_bill_amount c)
      || is_null (Claim.total_bill_amount c)).

(** [UPDATE claims SET tpa_name = insurance_company WHERE tpa_name IS NULL
     OR tpa_name = ''] *)
Definition backfill_tpa (c : Claim.t) : Claim.t :=
  if is_null (Claim.tpa_name c) || bool_decide (Claim.tpa_name c = VStr "")
  then
    {| Claim.email_uid := Claim.email_uid c;
       Claim.email_date := Claim.email_date c;
       Claim.patient_name := Claim.patient_name c;
       Claim.uhid_mrn := Claim.uhid_mrn c;
       Claim.insurance_company := Claim.insurance_company c;
       Claim.tpa_name := Claim.insurance_company c;
       Claim.claim_number := Claim.claim_number c;
       Claim.claim_status := Claim.claim_status c;
       Claim.claim_date := Claim.claim_date c;
       Claim.settlement_date := Claim.settlement_date c;
       Claim.submitted_date := Claim.submitted_date c;
       Claim.claim_type := Claim.claim_type c;
       Claim.approved_amount := Claim.approved_amount c;
       Claim.settled_amount := Claim.settled_amount c;
       Claim.rejected_amount := Claim.rejected_amount c;
       Claim.outstanding_amount := Claim.outstanding_amount c;
       Claim.total_bill_amount := Claim.total_bill_amount c;
       Claim.claim_amount := Claim.claim_amount c;
       Claim.patient_payable_amount := Claim.patient_payable_amount c;
       Claim.insurance_coverage_percent := Claim.insurance_coverage_percent c;
       Claim.balance_amount := Claim.balance_amount c;
       Claim.remarks := Claim.remarks c;
       Claim.tat_followup_date := Claim.tat_followup_date c;
       Claim.processed_at := Claim.processed_at c |}
  else c.

(** [UPDATE claims SET claim_amount = total_bill_amount WHERE claim_amount
     IS NULL OR claim_amount = 0] *)
Definition backfill_claim_amount (c : Claim.t) : Claim.t :=
  if is_null (Claim.claim_amount c) || is_zero (Claim.claim_amount c)
  then Claim.setattr "claim_amount" (Claim.total_bill_amount c) c
  else c.

(** The statements in the order in which [check_and_migrate] issues
    them. *)
Definition check_and_migrate (rows : list Claim.t) : list Claim.t :=
  let rows := map zero_settled_balance rows in
  let rows := map settled_patient_payable rows in
  let rows := List.filter (fun c => negb (is_junk c)) rows in
  let rows := map backfill_tpa rows in
  map backfill_claim_amount rows.

End Migration.


(** ** Vocabulary of the statements *)

(** A date value on which [normalize_date_str] does not raise: anything
    but a number other than zero. *)
Definition date_ok (v : pyval) : bool :=
  match v with VNum q => bool_decide (q = 0%Qc) | _ => true end.

(** The date keys of a draft hold strings or nothing, as the extraction
    contract has it. *)
Definition dates_well_typed (d : dict) : bool :=
  forallb (fun field => date_ok (get d field)) date_fields.

(** The amount a draft carries under key [k], once coerced. *)
Definition amount (d : dict) (k : string) : Qc :=
  default 0%Qc (as_num (coerce_financial (get_or d k (VNum 0)))).

(** The gross bill after the fallbacks, in the words of the design: the
    bill itself unless it is zero, else the claimed amount, else the
    settled amount. *)
Definition backfilled_total (d : dict) : Qc :=
  let t := amount d "total_bill_amount" in
  if decide (t = 0%Qc) then
    if decide (0 < amount d "claim_amount")%Qc then amount d "claim_amount"
    else if decide (0 < amount d "settled_amount")%Qc
         then amount d "settled_amount"
         else t
  else t.

(** Membership of a key in one of the fixed key lists, decided by
    evaluation, and the case split on such a membership. *)
Ltac solve_key := apply (bool_decide_unpack _); by vm_compute.

Ltac key_cases H :=
  repeat (apply elem_of_cons in H as [->|H]); [..|by apply elem_of_nil in H].

(** A claim number that the cleaner rejects, in the words of the design: a
    denylisted token, or fewer than four characters that are not all
    digits, both read on the trimmed, lower-cased value. *)
Definition garbage_claim_number (s : string) : Prop :=
  let val := Str.lower (Str.strip s) in
  val ∈ junk_values \/ (String.length val < 4 /\ Str.isdigit val = false).

(** No model backend answers: the regex fallback decides. *)
Definition no_backends : backends :=
  {| openai_reply := None; local_reply := None |}.

(** The stored row that a draft resolves to, as the resolver looks it up
    once the draft has its patient name or the placeholder. *)
Definition matched_claim {rt : Runtime} (db : store) (uid : string) (d : dict)
    : option (nat * Claim.t) :=
  let '(p_name, extracted_data) := placeholder_name (get d "patient_name") d in
  find_existing db uid (get d "claim_number") p_name extracted_data.

(** The draft carries a patient name or a claim number. *)
Definition identified {rt : Runtime} (d : dict) : bool :=
  negb (name_missing (get d "patient_name")
        && negb (truthy (get d "claim_number"))).


(** ** Sample data *)

(** The Pending draft of the design: bill 10000, approved 8000. *)
Definition pending_draft : dict :=
  <["claim_status" := VStr "Pending"]>
    (<["total_bill_amount" := VNum (Qc_of_Z 10000)]>
      (<["approved_amount" := VNum (Qc_of_Z 8000)]> ∅)).

(** The Settled draft of the design: bill 10000, settled 9000. *)
Definition settled_draft : dict :=
  <["claim_status" := VStr "Settled"]>
    (<["total_bill_amount" := VNum (Qc_of_Z 10000)]>
      (<["settled_amount" := VNum (Qc_of_Z 9000)]> ∅)).

(** A model draft that says Approved. *)
Definition approved_draft : dict :=
  <["claim_status" := VStr "Approved"]>
    (<["patient_name" := VStr "Asha Rao"]> ∅).

(** A draft with a patient name and nothing else to identify the claim. *)
Definition name_only_draft : dict :=
  <["claim_status" := VStr "Pending"]>
    (<["patient_name" := VStr "Ravi Kumar"]> ∅).

(** A draft with neither a patient name nor a claim number. *)
Definition anonymous_draft : dict :=
  <["claim_status" := VStr "Pending"]>
    (<["remarks" := VStr "documents awaited"]> ∅).

(** A stored row for claim ABC1, last touched by message 7 at time 100,
    with 500 settled and a balance of 300. *)
Definition stored_claim : Claim.t :=
  {| Claim.email_uid := "7";
     Claim.email_date := Some 100%Z;
     Claim.patient_name := VStr "Asha Rao";
     Claim.uhid_mrn := VStr "H-221";
     Claim.insurance_company := VStr "Star Health";
     Claim.tpa_name := VStr "Medi Assist";
     Claim.claim_number := VStr "ABC1";
     Claim.claim_status := VStr "Approved";
     Claim.claim_date := VNone;
     Claim.settlement_date := VNone;
     Claim.submitted_date := VNone;
     Claim.claim_type := VStr "Cashless";
     Claim.approved_amount := VNum (Qc_of_Z 800);
     Claim.settled_amount := VNum (Qc_of_Z 500);
     Claim.rejected_amount := VNum (Qc_of_Z 200);
     Claim.outstanding_amount := VNum (Qc_of_Z 300);
     Claim.total_bill_amount := VNum (Qc_of_Z 1000);
     Claim.claim_amount := VNum (Qc_of_Z 1000);
     Claim.patient_payable_amount := VNum (Qc_of_Z 200);
     Claim.insurance_coverage_percent := VNum (Qc_of_Z 80);
     Claim.balance_amount := VNum (Qc_of_Z 300);
     Claim.remarks := VNone;
     Claim.tat_followup_date := VNone;
     Claim.processed_at := 100%Z |}.

Definition one_claim_store : store :=
  {| claims := [stored_claim]; history := []; logs := [] |}.

Definition empty_store : store :=
  {| claims := []; history := []; logs := [] |}.

(** A follow-up for claim ABC1 that reports no settlement and a claimed
    amount of 700. *)
Definition followup_draft : dict :=
  <["claim_number" := VStr "ABC1"]>
    (<["settled_amount" := VNum 0]>
      (<["claim_amount" := VNum (Qc_of_Z 700)]> ∅)).


(** ** Vocabulary of the further statements *)

(** The status the formulas read: the key's value, Pending when the key is
    missing. *)
Definition status_of (d : dict) : pyval :=
  get_or d "claim_status" (VStr "Pending").

(** The rejected amount after rule 1 on an extracted amount [r], a bill
    [t] and an approved amount [a]: recomputed when [r] is zero or more
    than one unit away from [max(0, t - a)], kept otherwise. *)
Definition reconciled_rejected (r t a : Qc) : Qc :=
  if bool_decide (r = 0%Qc) then max0 (t - a)
  else if bool_decide (1 < Qcabs (r - max0 (t - a)))%Qc then max0 (t - a)
  else r.

(** The claimed amount after the fallbacks. *)
Definition backfilled_claim_amount (d : dict) : Qc :=
  if decide (amount d "claim_amount" = 0%Qc) then backfilled_total d
  else amount d "claim_amount".

(** A financial input that is not a negative number. *)
Definition not_negative (v : pyval) : Prop :=
  match v with VNum q => (0 ≤ q)%Qc | _ => True end.

(** A placeholder word, as [clean_none_string] reads it. *)
Definition placeholder_word (s : string) : Prop :=
  Str.lower (Str.strip s) ∈ ["none"; "n/a"; "null"; "unknown"; ""].


(** ** Vocabulary and sample data of the further properties *)

(** The first two keyword tiers of the regex fallback. *)
Definition settled_tier : list string :=
  ["payment settled"; "settlement processed"; "payment made";
   "amount disbursed"; "paid out"; "eft processed"; "settled";
   "payment advice"; "net payable"; "utr number"; "utr no"; "neft"].

Definition approval_tier : list string :=
  ["claim approved"; "approval granted"; "approved for"; "sanctioned";
   "authorized"].


(** An Approved draft: bill 10000, approved 8000, 3000 paid so far, and a
    claim type, which is no key of the reconciliation. *)
Definition part_paid_draft : dict :=
  <["claim_status" := VStr "Approved"]>
    (<["claim_type" := VStr "Cashless"]>
      (<["total_bill_amount" := VNum (Qc_of_Z 10000)]>
        (<["approved_amount" := VNum (Qc_of_Z 8000)]>
          (<["settled_amount" := VNum (Qc_of_Z 3000)]> ∅)))).

(** A draft whose claim date came back as a number. *)
Definition numeric_date_draft : dict :=
  <["claim_status" := VStr "Approved"]>
    (<["claim_date" := VNum (Qc_of_Z 20250101)]> ∅).

(** A draft whose remarks are a placeholder word. *)
Definition placeholder_remarks_draft : dict :=
  <["claim_status" := VStr "Queried"]>
    (<["remarks" := VStr "N/A"]>
      (<["insurance_company" := VStr "Star Health"]> ∅)).

(** Only the local model answers, with [data]. *)
Definition local_only (data : dict) : backends :=
  {| openai_reply := None; local_reply := Some data |}.

(** Only the primary model answers, with [data]. *)
Definition primary_only (data : dict) : backends :=
  {| openai_reply := Some data; local_reply := None |}.


(** * Properties *)

Example clean_claim_number_Gross :
  clean_claim_number (VStr "Gross") = VNone.
Proof. reflexivity. Qed.

Example clean_claim_number_padded :
  clean_claim_number (VStr "  ABC123 ") = VStr "ABC123".
Proof. reflexivity. Qed.

(** ** Properties of the reconciliation *)

(** *** The number loop on one value *)

Lemma Q2Qc_nonneg (q : Q) : (0 <= q)%Q -> (0 ≤ Q2Qc q)%Qc.
Proof.
  intros Hq. unfold Qcle. simpl. by rewrite !Qred_correct.
Qed.

Lemma Float_parse_nonneg (s : string) (q : Qc) :
  Float.parse s = Some q -> (0 ≤ q)%Qc.
Proof.
  unfold Float.parse, Float.decimal.
  destruct (Float.split_dot s) as [i [f|]]; intros Hp;
    repeat case_match; simplify_eq;
    apply Q2Qc_nonneg; unfold Qle; simpl; lia.
Qed.

Lemma float_or_zero_nonneg (s : string) : (0 ≤ float_or_zero s)%Qc.
Proof.
  unfold float_or_zero. repeat case_match;
    eauto using Float_parse_nonneg; done.
Qed.

Lemma coerce_financial_is_num (a : pyval) :
  exists q, coerce_financial a = VNum q.
Proof. destruct a; simpl; eauto. Qed.

Lemma coerce_financial_str_nonneg (s : string) (q : Qc) :
  coerce_financial (VStr s) = VNum q -> (0 ≤ q)%Qc.
Proof. simpl. intros [= <-]. apply float_or_zero_nonneg. Qed.

(** *** Frame lemmas for the field loops *)

Lemma get_Some (d : dict) (k : string) (v : pyval) :
  d !! k = Some v -> get d k = v.
Proof. unfold get. by intros ->. Qed.

Lemma get_or_Some (d : dict) (k : string) (v dflt : pyval) :
  d !! k = Some v -> get_or d k dflt = v.
Proof. unfold get_or. by intros ->. Qed.

Lemma update_each_lookup g keys (d : dict) (k : string) :
  NoDup keys ->
  update_each g keys d !! k
  = if decide (k ∈ keys) then Some (g k (d !! k)) else d !! k.
Proof.
  unfold update_each. revert d.
  induction keys as [|f keys IH]; intros d Hnd.
  - case_decide; [set_solver|done].
  - apply NoDup_cons in Hnd as [Hf Hnd]. cbn [foldl]. rewrite IH by done.
    destruct (decide (k = f)) as [->|Hne].
    + rewrite (decide_False (P := f ∈ keys)) by done.
      rewrite (decide_True (P := f ∈ f :: keys)) by apply list_elem_of_here.
      by rewrite lookup_insert_eq.
    + rewrite lookup_insert_ne by done.
      destruct (decide (k ∈ keys)).
      * by rewrite decide_True by (by apply list_elem_of_further).
      * rewrite decide_False; [done|].
        intros [?|?]%elem_of_cons; done.
Qed.

Lemma financial_fields_NoDup : NoDup financial_fields.
Proof. apply (bool_decide_unpack _). by vm_compute. Qed.

Lemma text_fields_NoDup : NoDup text_fields.
Proof. apply (bool_decide_unpack _). by vm_compute. Qed.

Lemma coerce_financial_amount (d : dict) (k : string) :
  coerce_financial (get_or d k (VNum 0)) = VNum (amount d k).
Proof.
  unfold amount.
  destruct (coerce_financial_is_num (get_or d k (VNum 0))) as [q ->]. done.
Qed.

Section ReconciliationFacts.
Context {rt : Runtime}.

Lemma normalize_date_str_ok (v w : pyval) :
  normalize_date_str v = Some w -> date_ok w = true.
Proof.
  unfold normalize_date_str. repeat case_match; intros; by simplify_eq.
Qed.

Lemma normalize_date_str_total (v : pyval) :
  date_ok v = true -> is_Some (normalize_date_str v).
Proof.
  unfold normalize_date_str. destruct v as [|s|q]; simpl; intros Hv.
  - eauto.
  - repeat case_match; eauto.
  - rewrite Hv. simpl. eauto.
Qed.

Lemma normalize_date_fields_total keys (d : dict) :
  (forall f, f ∈ keys -> date_ok (get d f) = true) ->
  exists d', normalize_date_fields keys d = Some d'
             /\ forall k, k ∉ keys -> d' !! k = d !! k.
Proof.
  revert d. induction keys as [|f keys IH]; intros d Hok; simpl.
  - eauto.
  - destruct (truthy (get d f)).
    + destruct (normalize_date_str_total (get d f)) as [v Hv];
        [apply Hok; set_solver|].
      rewrite Hv. simpl.
      destruct (IH (<[f := v]> d)) as (d' & Hd' & Hfr).
      { intros g Hg. unfold get. destruct (decide (g = f)) as [->|Hne].
        - rewrite lookup_insert_eq. simpl. eauto using normalize_date_str_ok.
        - rewrite lookup_insert_ne by done. apply Hok. set_solver. }
      exists d'. split; [done|]. intros k Hk.
      rewrite Hfr by set_solver. apply lookup_insert_ne. set_solver.
    + destruct (IH d) as (d' & Hd' & Hfr); [intros; apply Hok; set_solver|].
      exists d'. split; [done|]. intros k Hk. apply Hfr. set_solver.
Qed.

Lemma coerce_fields_lookup (d : dict) (k : string) :
  coerce_fields d !! k
  = if decide (k ∈ financial_fields) then Some (VNum (amount d k))
    else d !! k.
Proof.
  unfold coerce_fields. rewrite update_each_lookup
    by apply financial_fields_NoDup.
  case_decide; [|done]. f_equal. apply coerce_financial_amount.
Qed.

Lemma sanitize_text_fields_lookup (d : dict) (k : string) :
  sanitize_text_fields d !! k
  = if decide (k ∈ text_fields) then Some (sanitize_text k (d !! k))
    else d !! k.
Proof.
  unfold sanitize_text_fields. by rewrite update_each_lookup
    by apply text_fields_NoDup.
Qed.

End ReconciliationFacts.

Section ReconciliationSteps.
Context {rt : Runtime}.

(** Steps 1 to 2 never raise on a draft with well-typed dates; they
    leave the coerced amounts under the financial keys and do not touch
    the status. *)
Lemma reconcile_prefix (d : dict) :
  dates_well_typed d = true ->
  exists d2,
    normalize_date_fields date_fields
      (sanitize_text_fields (coerce_fields d)) = Some d2
    /\ (forall k, k ∈ financial_fields -> d2 !! k = Some (VNum (amount d k)))
    /\ d2 !! "claim_status" = d !! "claim_status".
Proof.
  intros Hd.
  destruct (normalize_date_fields_total date_fields
              (sanitize_text_fields (coerce_fields d))) as (d2 & Hd2 & Hfr).
  { intros f Hf. unfold get.
    rewrite sanitize_text_fields_lookup, coerce_fields_lookup.
    unfold dates_well_typed in Hd. rewrite forallb_forall in Hd.
    specialize (Hd f). rewrite <- list_elem_of_In in Hd.
    specialize (Hd Hf). unfold get in Hd.
    rewrite decide_False by (key_cases Hf; solve_key).
    rewrite decide_False by (key_cases Hf; solve_key). done. }
  exists d2. split; [done|]. split.
  - intros k Hk. rewrite Hfr by (key_cases Hk; solve_key).
    rewrite sanitize_text_fields_lookup, coerce_fields_lookup.
    rewrite decide_False by (key_cases Hk; solve_key).
    by rewrite decide_True.
  - rewrite Hfr by solve_key.
    rewrite sanitize_text_fields_lookup, coerce_fields_lookup.
    rewrite decide_False by solve_key. by rewrite decide_False by solve_key.
Qed.

Lemma and_gt0_num (q : Qc) :
  and_gt0 (VNum q) = Some (bool_decide (0 < q)%Qc).
Proof.
  unfold and_gt0. simpl. destruct (decide (q = 0%Qc)) as [->|Hq].
  - by rewrite bool_decide_eq_true_2.
  - by rewrite (bool_decide_eq_false_2 (q = 0%Qc)).
Qed.

Lemma falsy_or_zero_num (q : Qc) :
  negb (truthy (VNum q)) || py_eq0 (VNum q) = bool_decide (q = 0%Qc).
Proof. simpl. by destruct (bool_decide (q = 0%Qc)). Qed.

(** Step 3 on numeric amounts. *)
Lemma backfill_totals_numeric (d : dict) (t c s : Qc) :
  d !! "total_bill_amount" = Some (VNum t) ->
  d !! "claim_amount" = Some (VNum c) ->
  d !! "settled_amount" = Some (VNum s) ->
  exists d',
    backfill_totals d = Some d'
    /\ d' !! "total_bill_amount"
       = Some (VNum (if decide (t = 0%Qc) then
                       if decide (0 < c)%Qc then c
                       else if decide (0 < s)%Qc then s else t
                     else t))
    /\ forall k, k ≠ "total_bill_amount" -> k ≠ "claim_amount" ->
                 d' !! k = d !! k.
Proof.
  intros Ht Hc Hs. unfold backfill_totals.
  rewrite (get_Some _ _ _ Ht), (get_Some _ _ _ Hc), (get_Some _ _ _ Hs).
  rewrite falsy_or_zero_num, !and_gt0_num. cbn [mbind option_bind].
  destruct (decide (t = 0%Qc)) as [Htz|Htz];
    [rewrite (bool_decide_eq_true_2 _ Htz)
    |rewrite (bool_decide_eq_false_2 _ Htz)];
    [destruct (decide (0 < c)%Qc) as [Hcp|Hcp];
      [rewrite (bool_decide_eq_true_2 _ Hcp)
      |rewrite (bool_decide_eq_false_2 _ Hcp);
       destruct (decide (0 < s)%Qc) as [Hsp|Hsp];
         [rewrite (bool_decide_eq_true_2 _ Hsp)
         |rewrite (bool_decide_eq_false_2 _ Hsp)]]|];
    cbn [mbind option_bind];
    (erewrite (get_Some _ "claim_amount")
       by (rewrite ?lookup_insert_ne by done; exact Hc));
    rewrite falsy_or_zero_num;
    destruct (bool_decide (c = 0%Qc));
    (eexists; split; [done|]; split;
     [by rewrite ?lookup_insert_eq, ?lookup_insert_ne, ?lookup_insert_eq by done
     |intros k Hk Hk'; by rewrite ?lookup_insert_ne by done]).
Qed.

(** Step 4, status Pending. *)
Lemma business_formulas_pending (d : dict) (t a r : Qc) :
  d !! "total_bill_amount" = Some (VNum t) ->
  d !! "approved_amount" = Some (VNum a) ->
  d !! "rejected_amount" = Some (VNum r) ->
  d !! "claim_status" = Some (VStr "Pending") ->
  exists d',
    business_formulas d = Some d'
    /\ d' !! "approved_amount" = Some (VNum 0)
    /\ d' !! "settled_amount" = Some (VNum 0)
    /\ d' !! "rejected_amount" = Some (VNum 0)
    /\ d' !! "patient_payable_amount" = Some (VNum 0)
    /\ d' !! "total_bill_amount" = Some (VNum t)
    /\ d' !! "balance_amount" = Some (VNum t)
    /\ d' !! "outstanding_amount" = Some (VNum t).
Proof.
  intros Ht Ha Hr Hst. unfold business_formulas.
  rewrite (get_or_Some _ _ _ _ Ht), (get_or_Some _ _ _ _ Ha),
    (get_or_Some _ _ _ _ Hr), (get_or_Some _ _ _ _ Hst).
  cbn [as_num mbind option_bind].
  destruct (py_eq0 (VNum r)); [|destruct (bool_decide (1 < _)%Qc)];
    cbn [mbind option_bind]; rewrite bool_decide_eq_true_2 by done;
    cbn [mbind option_bind]; unfold get_or;
    (eexists; split; [done|]); repeat split; by simplify_map_eq.
Qed.

(** Step 4, status Settled. *)
Lemma business_formulas_settled (d : dict) (t a s r : Qc) :
  d !! "total_bill_amount" = Some (VNum t) ->
  d !! "approved_amount" = Some (VNum a) ->
  d !! "settled_amount" = Some (VNum s) ->
  d !! "rejected_amount" = Some (VNum r) ->
  d !! "claim_status" = Some (VStr "Settled") ->
  exists d',
    business_formulas d = Some d'
    /\ d' !! "total_bill_amount" = Some (VNum t)
    /\ d' !! "settled_amount" = Some (VNum s)
    /\ d' !! "balance_amount" = Some (VNum 0)
    /\ d' !! "patient_payable_amount" = Some (VNum (max0 (t - s)))
    /\ d' !! "outstanding_amount" = Some (VNum 0)
    /\ d' !! "claim_status" = Some (VStr "Settled").
Proof.
  intros Ht Ha Hs Hr Hst. unfold business_formulas.
  rewrite (get_or_Some _ _ _ _ Ht), (get_or_Some _ _ _ _ Ha),
    (get_or_Some _ _ _ _ Hr), (get_or_Some _ _ _ _ Hs),
    (get_or_Some _ _ _ _ Hst).
  cbn [as_num mbind option_bind].
  destruct (py_eq0 (VNum r)); [|destruct (bool_decide (1 < _)%Qc)];
    cbn [mbind option_bind];
    rewrite (bool_decide_eq_false_2 (VStr "Settled" = VStr "Pending")) by done;
    rewrite bool_decide_eq_true_2 by done;
    cbn [mbind option_bind]; unfold get_or;
    (eexists; split; [done|]); repeat split; by simplify_map_eq.
Qed.

End ReconciliationSteps.

(** *** Reconciliation by status *)

Section ReconciliationTheorems.
Context {rt : Runtime}.

Lemma claim_status_nonempty (d : dict) (v : pyval) :
  d !! "claim_status" = Some v -> dict_empty d = false.
Proof.
  intros Hst. unfold dict_empty. apply bool_decide_eq_false_2.
  intros ->. by rewrite lookup_empty in Hst.
Qed.

(** C1. A draft whose status is Pending comes out of the reconciliation
    with approved, settled, rejected and patient-payable amounts equal to
    zero and with a balance equal to the backfilled gross bill. *)
Theorem pending_reconciliation (d : dict) (text : string) :
  d !! "claim_status" = Some (VStr "Pending") ->
  dates_well_typed d = true ->
  exists d',
    apply_financial_formulas d text = Some d'
    /\ d' !! "approved_amount" = Some (VNum 0)
    /\ d' !! "settled_amount" = Some (VNum 0)
    /\ d' !! "rejected_amount" = Some (VNum 0)
    /\ d' !! "patient_payable_amount" = Some (VNum 0)
    /\ d' !! "total_bill_amount" = Some (VNum (backfilled_total d))
    /\ d' !! "balance_amount" = Some (VNum (backfilled_total d)).
Proof.
  intros Hst Hdt. unfold apply_financial_formulas.
  rewrite (claim_status_nonempty _ _ Hst).
  destruct (reconcile_prefix d Hdt) as (d2 & -> & Hfin & Hst2).
  rewrite Hst in Hst2. cbn [mbind option_bind].
  destruct (backfill_totals_numeric d2
              (amount d "total_bill_amount") (amount d "claim_amount")
              (amount d "settled_amount"))
    as (d3 & -> & Ht3 & Hfr3); [apply Hfin; solve_key..|].
  cbn [mbind option_bind].
  destruct (business_formulas_pending d3 (backfilled_total d)
              (amount d "approved_amount") (amount d "rejected_amount"))
    as (d' & Hd' & Hap & Hse & Hre & Hpp & Htt & Hba & _).
  - exact Ht3.
  - rewrite Hfr3 by done. apply Hfin. solve_key.
  - rewrite Hfr3 by done. apply Hfin. solve_key.
  - by rewrite Hfr3.
  - exists d'. by repeat split.
Qed.

(** The reconciliation of a Settled draft, with everything the later
    statements need. *)
Lemma reconcile_settled (d : dict) (text : string) :
  d !! "claim_status" = Some (VStr "Settled") ->
  dates_well_typed d = true ->
  exists d',
    apply_financial_formulas d text = Some d'
    /\ d' !! "total_bill_amount" = Some (VNum (backfilled_total d))
    /\ d' !! "settled_amount" = Some (VNum (amount d "settled_amount"))
    /\ d' !! "balance_amount" = Some (VNum 0)
    /\ d' !! "patient_payable_amount"
       = Some (VNum (max0 (backfilled_total d - amount d "settled_amount")))
    /\ d' !! "outstanding_amount" = Some (VNum 0)
    /\ d' !! "claim_status" = Some (VStr "Settled").
Proof.
  intros Hst Hdt. unfold apply_financial_formulas.
  rewrite (claim_status_nonempty _ _ Hst).
  destruct (reconcile_prefix d Hdt) as (d2 & -> & Hfin & Hst2).
  rewrite Hst in Hst2. cbn [mbind option_bind].
  destruct (backfill_totals_numeric d2
              (amount d "total_bill_amount") (amount d "claim_amount")
              (amount d "settled_amount"))
    as (d3 & -> & Ht3 & Hfr3); [apply Hfin; solve_key..|].
  cbn [mbind option_bind].
  apply (business_formulas_settled d3 (backfilled_total d)
           (amount d "approved_amount") (amount d "settled_amount")
           (amount d "rejected_amount")).
  - exact Ht3.
  - rewrite Hfr3 by done. apply Hfin. solve_key.
  - rewrite Hfr3 by done. apply Hfin. solve_key.
  - rewrite Hfr3 by done. apply Hfin. solve_key.
  - by rewrite Hfr3.
Qed.

(** C2. A draft whose status is Settled comes out with a zero balance, a
    patient-payable amount of [max(0, total_bill - settled)] over the
    returned bill and settled amounts, and an outstanding amount equal
    to the balance. *)
Theorem settled_reconciliation (d : dict) (text : string) :
  d !! "claim_status" = Some (VStr "Settled") ->
  dates_well_typed d = true ->
  exists d' t s,
    apply_financial_formulas d text = Some d'
    /\ d' !! "total_bill_amount" = Some (VNum t)
    /\ d' !! "settled_amount" = Some (VNum s)
    /\ t = backfilled_total d
    /\ s = amount d "settled_amount"
    /\ d' !! "balance_amount" = Some (VNum 0)
    /\ d' !! "patient_payable_amount" = Some (VNum (max0 (t - s)))
    /\ d' !! "outstanding_amount" = d' !! "balance_amount".
Proof.
  intros Hst Hdt.
  destruct (reconcile_settled d text Hst Hdt)
    as (d' & Hd' & Htt & Hse & Hba & Hpp & Hou & _).
  exists d', (backfilled_total d), (amount d "settled_amount").
  rewrite Hou, Hba. by repeat split.
Qed.

End ReconciliationTheorems.

(** *** The two reconciliations of the design *)

(** Pending, bill 10000, approved 8000 as extracted: every sub-amount is
    zeroed and the balance is the bill. *)
Lemma pending_reconciliation_example :
  pending_draft !! "claim_status" = Some (VStr "Pending")
  /\ dates_well_typed pending_draft = true
  /\ exists d',
       apply_financial_formulas (rt := blank_runtime) pending_draft "" = Some d'
       /\ d' !! "approved_amount" = Some (VNum 0)
       /\ d' !! "settled_amount" = Some (VNum 0)
       /\ d' !! "rejected_amount" = Some (VNum 0)
       /\ d' !! "patient_payable_amount" = Some (VNum 0)
       /\ d' !! "balance_amount" = Some (VNum (Qc_of_Z 10000)).
Proof.
  split; [reflexivity|]. split; [reflexivity|].
  destruct (pending_reconciliation (rt := blank_runtime) pending_draft ""
              eq_refl eq_refl)
    as (d' & Hd' & Hap & Hse & Hre & Hpp & _ & Hba).
  exists d'. split; [exact Hd'|]. split; [exact Hap|]. split; [exact Hse|].
  split; [exact Hre|]. split; [exact Hpp|]. exact Hba.
Defined.

Lemma max0_10000_minus_9000 :
  max0 (Qc_of_Z 10000 - Qc_of_Z 9000) = Qc_of_Z 1000.
Proof. apply Qc_is_canon. reflexivity. Qed.

(** Settled, bill 10000, settled 9000: the balance is zero and the patient
    owes 1000. *)
Lemma settled_reconciliation_example :
  settled_draft !! "claim_status" = Some (VStr "Settled")
  /\ dates_well_typed settled_draft = true
  /\ exists d',
       apply_financial_formulas (rt := blank_runtime) settled_draft "" = Some d'
       /\ d' !! "balance_amount" = Some (VNum 0)
       /\ d' !! "patient_payable_amount" = Some (VNum (Qc_of_Z 1000))
       /\ d' !! "outstanding_amount" = d' !! "balance_amount".
Proof.
  split; [reflexivity|]. split; [reflexivity|].
  destruct (settled_reconciliation (rt := blank_runtime) settled_draft ""
              eq_refl eq_refl)
    as (d' & t & s & Hd' & _ & _ & Ht & Hs & Hba & Hpp & Hou).
  exists d'. split; [exact Hd'|]. split; [exact Hba|]. split; [|exact Hou].
  rewrite Hpp, Ht, Hs. f_equal. f_equal. exact max0_10000_minus_9000.
Defined.

(** *** Reconciliation always returns *)

Section ReconciliationTotal.
Context {rt : Runtime}.

(** Step 4 never raises on numeric amounts and keeps the status key. *)
Lemma business_formulas_total (d : dict) (t a s r : Qc) :
  d !! "total_bill_amount" = Some (VNum t) ->
  d !! "approved_amount" = Some (VNum a) ->
  d !! "settled_amount" = Some (VNum s) ->
  d !! "rejected_amount" = Some (VNum r) ->
  exists d',
    business_formulas d = Some d'
    /\ d' !! "claim_status" = d !! "claim_status".
Proof.
  intros Ht Ha Hs Hr. unfold business_formulas.
  rewrite (get_or_Some _ _ _ _ Ht), (get_or_Some _ _ _ _ Ha),
    (get_or_Some _ _ _ _ Hr), (get_or_Some _ _ _ _ Hs).
  cbn [as_num mbind option_bind].
  destruct (py_eq0 (VNum r)); [|destruct (bool_decide (1 < _)%Qc)];
    cbn [mbind option_bind];
    repeat (case_bool_decide; cbn [mbind option_bind]);
    (eexists; split; [done|]); by rewrite !lookup_insert_ne by done.
Qed.

(** Reconciliation returns on every non-empty draft whose date keys hold
    strings or nothing, and it does not touch the status key. *)
Lemma reconciliation_total (d : dict) (text : string) :
  dict_empty d = false ->
  dates_well_typed d = true ->
  exists d',
    apply_financial_formulas d text = Some d'
    /\ d' !! "claim_status" = d !! "claim_status".
Proof.
  intros Hne Hdt. unfold apply_financial_formulas. rewrite Hne.
  destruct (reconcile_prefix d Hdt) as (d2 & -> & Hfin & Hst2).
  cbn [mbind option_bind].
  destruct (backfill_totals_numeric d2
              (amount d "total_bill_amount") (amount d "claim_amount")
              (amount d "settled_amount"))
    as (d3 & -> & Ht3 & Hfr3); [apply Hfin; solve_key..|].
  cbn [mbind option_bind].
  destruct (business_formulas_total d3 (backfilled_total d)
              (amount d "approved_amount") (amount d "settled_amount")
              (amount d "rejected_amount"))
    as (d' & Hd' & Hst').
  - exact Ht3.
  - rewrite Hfr3 by done. apply Hfin. solve_key.
  - rewrite Hfr3 by done. apply Hfin. solve_key.
  - rewrite Hfr3 by done. apply Hfin. solve_key.
  - exists d'. split; [done|]. rewrite Hst', Hfr3 by done. done.
Qed.

End ReconciliationTotal.

(** *** The number loop, as a whole *)

(** What the number loop does guarantee: every value becomes a number, a
    second pass changes nothing, and a string or [None] never yields a
    negative number. *)
Lemma coerce_financial_shape (a : pyval) :
  exists q,
    coerce_financial a = VNum q
    /\ (as_num a = None -> (0 ≤ q)%Qc)
    /\ coerce_financial (coerce_financial a) = coerce_financial a.
Proof.
  destruct (coerce_financial_is_num a) as [q Hq]. exists q.
  split; [done|]. split.
  - destruct a as [|s|n]; intros Hna.
    + simpl in Hq. by simplify_eq.
    + eauto using coerce_financial_str_nonneg.
    + done.
  - by rewrite Hq.
Qed.

(** The string "-5" loses its sign in the substitution and comes out as
    5. *)
Example coerce_financial_minus_5_string :
  coerce_financial (VStr "-5") = VNum (Q2Qc 5).
Proof. reflexivity. Qed.

(** C3: the code at the failing input.  The number -5 is already a number,
    takes the [float(val)] branch and stays -5: the coerced amount is
    negative, where the string and [None] branches never give one. *)
Lemma coerce_financial_keeps_negative :
  coerce_financial (VNum (Qc_of_Z (-5))) = VNum (Qc_of_Z (-5))
  /\ ~ (0 ≤ Qc_of_Z (-5))%Qc.
Proof. split; [reflexivity|]. by apply Qclt_not_le. Qed.

(** ** Claim numbers *)

Example clean_claim_number_erence :
  clean_claim_number (VStr "erence") = VNone.
Proof. reflexivity. Qed.

Example clean_claim_number_empty :
  clean_claim_number (VStr "") = VStr "".
Proof. reflexivity. Qed.

(** C6 (as amended). On a non-empty string the cleaner answers [None]
    exactly for the garbage values (a denylisted token, or a trimmed value
    of fewer than four characters that are not all digits) and hands every
    other string back trimmed. *)
Theorem clean_claim_number_spec (s : string) :
  s ≠ "" ->
  (garbage_claim_number s -> clean_claim_number (VStr s) = VNone)
  /\ (~ garbage_claim_number s ->
      clean_claim_number (VStr s) = VStr (Str.strip s)).
Proof.
  intros Hs. unfold garbage_claim_number, clean_claim_number, Str.mem.
  cbn [truthy]. rewrite (bool_decide_eq_false_2 (s = "")) by done.
  cbn [negb]. split.
  - intros [Hjunk|[Hlen Hdig]].
    + by rewrite bool_decide_eq_true_2.
    + case_bool_decide; [done|].
      apply Nat.ltb_lt in Hlen. by rewrite Hlen, Hdig.
  - intros Hng. rewrite bool_decide_eq_false_2 by tauto.
    destruct (String.length (Str.lower (Str.strip s)) <? 4)%nat eqn:Hlen;
      [|done].
    destruct (Str.isdigit (Str.lower (Str.strip s))) eqn:Hdig; [done|].
    apply Nat.ltb_lt in Hlen. tauto.
Qed.

Lemma garbage_claim_number_dec (s : string) :
  Decision (garbage_claim_number s).
Proof. unfold garbage_claim_number. apply _. Defined.

(** The five values of the design: two denylisted words, a proper claim
    number, and two short numeric values, both of which are kept. *)
Lemma clean_claim_number_examples :
  clean_claim_number (VStr "Gross") = VNone
  /\ clean_claim_number (VStr "erence") = VNone
  /\ clean_claim_number (VStr "ABC123") = VStr "ABC123"
  /\ clean_claim_number (VStr "1234") = VStr "1234"
  /\ clean_claim_number (VStr "12") = VStr "12".
Proof.
  assert (Hg : forall s, bool_decide (garbage_claim_number s) = true ->
                         garbage_claim_number s)
    by (intros s; apply bool_decide_eq_true_1).
  assert (Hn : forall s, bool_decide (garbage_claim_number s) = false ->
                         ~ garbage_claim_number s)
    by (intros s; apply bool_decide_eq_false_1).
  split; [|split; [|split; [|split]]].
  - apply (proj1 (clean_claim_number_spec "Gross" ltac:(discriminate))).
    apply Hg. vm_compute. reflexivity.
  - apply (proj1 (clean_claim_number_spec "erence" ltac:(discriminate))).
    apply Hg. vm_compute. reflexivity.
  - apply (proj2 (clean_claim_number_spec "ABC123" ltac:(discriminate))).
    apply Hn. vm_compute. reflexivity.
  - apply (proj2 (clean_claim_number_spec "1234" ltac:(discriminate))).
    apply Hn. vm_compute. reflexivity.
  - apply (proj2 (clean_claim_number_spec "12" ltac:(discriminate))).
    apply Hn. vm_compute. reflexivity.
Defined.

(** C6 as stated fails on "12": it is short but purely numeric, and is
    kept. *)
Lemma clean_claim_number_12_kept :
  clean_claim_number (VStr "12") <> VNone.
Proof. vm_compute. discriminate. Qed.

(** ** Payment-advice override *)

Lemma any_in_intro (k : string) (ks : list string) (t : string) :
  k ∈ ks -> Str.contains k t = true -> any_in ks t = true.
Proof.
  intros Hk Hc. unfold any_in. apply existsb_exists.
  exists k. split; [by apply list_elem_of_In|done].
Qed.

Lemma contains_nonempty (k t : string) :
  k ≠ "" -> Str.contains k t = true -> t ≠ "".
Proof. intros Hk Hc ->. destruct k; [done|]. simpl in Hc. done. Qed.

Lemma lower_nonempty (t : string) : Str.lower t ≠ "" -> t ≠ "".
Proof. by intros Hl ->. Qed.

Lemma override_detected (data : dict) (text : string) :
  dict_empty data = false ->
  text ≠ "" ->
  payment_advice_detected (Str.lower text) = true ->
  override_status_for_payment_advice data text
  = <["claim_status" := VStr "Settled"]> data.
Proof.
  intros Hd Ht Hp. unfold override_status_for_payment_advice.
  rewrite Hd, (bool_decide_eq_false_2 _ Ht), Hp. done.
Qed.

(** C10. A text whose lower-casing holds the letters "eft" anywhere makes
    the override set the status of the draft to Settled. *)
Theorem eft_substring_forces_settled (data : dict) (text : string) :
  dict_empty data = false ->
  Str.contains "eft" (Str.lower text) = true ->
  override_status_for_payment_advice data text !! "claim_status"
  = Some (VStr "Settled").
Proof.
  intros Hd Heft. rewrite override_detected; [by rewrite lookup_insert_eq|done|..].
  - apply lower_nonempty. by apply (contains_nonempty "eft").
  - unfold payment_advice_detected.
    rewrite (any_in_intro "eft") by (done || solve_key). done.
Qed.

(** The word "left" is enough: an Approved draft turns Settled. *)
Lemma eft_inside_left :
  dict_empty (<["claim_status" := VStr "Approved"]> ∅ : dict) = false
  /\ Str.contains "eft" (Str.lower "Balance left to pay: nil") = true
  /\ override_status_for_payment_advice
       (<["claim_status" := VStr "Approved"]> ∅) "Balance left to pay: nil"
     !! "claim_status" = Some (VStr "Settled").
Proof.
  split; [reflexivity|]. split; [reflexivity|].
  apply eft_substring_forces_settled; reflexivity.
Defined.


Lemma dates_well_typed_insert_status (d : dict) (v : pyval) :
  dates_well_typed (<["claim_status" := v]> d) = dates_well_typed d.
Proof.
  unfold dates_well_typed, date_fields, get. cbn [forallb].
  by rewrite !lookup_insert_ne by done.
Qed.

Section OrchestratorTheorems.
Context {rt : Runtime}.

Lemma validate_extraction_nonempty (data : dict) :
  validate_extraction data = true -> dict_empty data = false.
Proof. unfold validate_extraction. by destruct (dict_empty data). Qed.

(** C5 (as amended). When the primary model answers with a draft that
    passes validation and has well-typed dates, and the lower-cased text
    holds a payment keyword or both "payment" and "advice", the
    extraction returns a draft whose status is Settled. *)
Theorem payment_advice_forces_settled_primary
    (b : backends) (text : string) (data : dict) :
  Str.strip text ≠ "" ->
  openai_reply b = Some data ->
  validate_extraction data = true ->
  dates_well_typed data = true ->
  payment_advice_detected (Str.lower text) = true ->
  exists r,
    extract_claim_data b text = Returned (Some r)
    /\ r !! "claim_status" = Some (VStr "Settled").
Proof.
  intros Hblank Hreply Hvalid Hdates Hpay.
  assert (Htext : text ≠ "") by (by intros ->).
  unfold extract_claim_data, model_strategy.
  rewrite (bool_decide_eq_false_2 _ Htext), (bool_decide_eq_false_2 _ Hblank).
  rewrite Hreply. cbn [orb mbind option_bind]. rewrite Hvalid.
  rewrite override_detected
    by eauto using validate_extraction_nonempty.
  destruct (reconcile_settled (<["claim_status" := VStr "Settled"]> data) text)
    as (r & -> & _ & _ & _ & _ & _ & Hst).
  - by rewrite lookup_insert_eq.
  - by rewrite dates_well_typed_insert_status.
  - eauto.
Qed.

End OrchestratorTheorems.

(** A model draft that says Approved, for a text that mentions an RTGS
    transfer: the returned draft says Settled. *)
Lemma payment_advice_primary_example :
  Str.strip "Claim approved. Amount sent by RTGS." ≠ ""
  /\ validate_extraction (rt := blank_runtime) approved_draft = true
  /\ dates_well_typed approved_draft = true
  /\ payment_advice_detected (Str.lower "Claim approved. Amount sent by RTGS.")
     = true
  /\ exists r,
       extract_claim_data (rt := blank_runtime)
         {| openai_reply := Some approved_draft; local_reply := None |}
         "Claim approved. Amount sent by RTGS."
       = Returned (Some r)
       /\ r !! "claim_status" = Some (VStr "Settled").
Proof.
  assert (Hblank : Str.strip "Claim approved. Amount sent by RTGS." ≠ "")
    by (vm_compute; discriminate).
  split; [exact Hblank|]. split; [reflexivity|]. split; [reflexivity|].
  split; [reflexivity|].
  apply (payment_advice_forces_settled_primary (rt := blank_runtime) _ _
           approved_draft); [exact Hblank|reflexivity..].
Defined.

(** C5 as stated fails on the fallback path: with no model answering, a
    text that mentions an RTGS transfer triggers the payment keywords, yet
    the returned draft says Pending. *)
Lemma fallback_not_overridden :
  payment_advice_detected (Str.lower "RTGS credit received") = true
  /\ exists r,
       extract_claim_data (rt := blank_runtime) no_backends "RTGS credit received"
       = Returned (Some r)
       /\ r !! "claim_status" = Some (VStr "Pending")
       /\ r !! "claim_status" ≠ Some (VStr "Settled").
Proof.
  split; [reflexivity|].
  eexists. split; [vm_compute; reflexivity|].
  split; [vm_compute; reflexivity|]. vm_compute. discriminate.
Qed.

(** *** The regex fallback never fails *)

Section Fallback.
Context {rt : Runtime}.

Lemma known_tpa_frame (m : list (string * string)) (text : string) (d : dict)
    (k : string) :
  k ≠ "tpa_name" -> known_tpa m text d !! k = d !! k.
Proof.
  intros Hk. induction m as [|[pattern name] m IH]; [done|].
  cbn [known_tpa]. case_bool_decide; [|done]. by rewrite lookup_insert_ne.
Qed.

Lemma resolve_tpa_frame (text : string) (d : dict) (k : string) :
  k ≠ "tpa_name" -> resolve_tpa text d !! k = d !! k.
Proof.
  intros Hk. unfold resolve_tpa.
  transitivity (tpa_improved text
                  (tpa_subject_line text (tpa_known_or_dynamic text d)) !! k).
  { unfold tpa_catch_all. repeat case_match; by rewrite ?lookup_insert_ne. }
  transitivity (tpa_subject_line text (tpa_known_or_dynamic text d) !! k).
  { unfold tpa_improved. repeat case_match; by rewrite ?lookup_insert_ne. }
  transitivity (tpa_known_or_dynamic text d !! k).
  { unfold tpa_subject_line. repeat case_match; by rewrite ?lookup_insert_ne. }
  unfold tpa_known_or_dynamic.
  repeat case_match; by rewrite ?lookup_insert_ne, ?known_tpa_frame.
Qed.

Lemma find_val_date_ok (pattern text : string) :
  date_ok (find_val pattern text) = true.
Proof. unfold find_val. by destruct (re_search pattern text true). Qed.

Lemma date_step (v : pyval) :
  date_ok v = true ->
  truthy v = false
  \/ exists w, truthy v = true /\ normalize_date_str v = Some w
               /\ date_ok w = true.
Proof.
  intros Hv. destruct (truthy v) eqn:Ht; [right|by left].
  destruct (normalize_date_str_total v Hv) as [w Hw].
  eauto using normalize_date_str_ok.
Qed.

(** A lookup in the draft that the fallback builds: through the inserts
    down to the key, or down to the empty dict. *)
Ltac fallback_lookup :=
  rewrite ?lookup_insert_ne by done;
  first [ rewrite lookup_insert_eq
        | rewrite resolve_tpa_frame by done;
          rewrite !lookup_insert_ne by done; rewrite lookup_empty ].

(** The draft of the regex fallback: it is always there, its status is
    the one of the keyword tiers, and its date keys are well typed. *)
Lemma extract_claim_data_regex_total (text : string) :
  exists d,
    extract_claim_data_regex text = Some d
    /\ d !! "claim_status" = Some (VStr (regex_status (Str.lower text)))
    /\ dates_well_typed d = true.
Proof.
  unfold extract_claim_data_regex. cbv zeta.
  generalize (find_val_date_ok
                ("(?:Settlement|Payment|EFT|Discharge)" +:+ date_tail) text).
  generalize (find_val_date_ok
                ("(?:Admission|DOA|Hospitalization|Claim\s+Submission)"
                 +:+ date_tail) text).
  repeat match goal with
         | |- context [find_val ?p text] =>
             generalize (find_val p text); intro
         | |- context [find_val_float ?p text] =>
             generalize (find_val_float p text); intro
         end.
  intros Hcd Hsd.
  destruct (date_step _ Hsd) as [Hs|(v & Hs & Hsn & Hv)];
  destruct (date_step _ Hcd) as [Hc|(w & Hc & Hcn & Hw)];
  rewrite Hs, Hc, ?Hsn, ?Hcn; cbn [mbind option_bind];
  (eexists; split; [done|]; split;
   [ by fallback_lookup
   | unfold dates_well_typed, date_fields, get; cbn [forallb];
     rewrite !andb_true_iff; repeat split; by fallback_lookup ]).
Qed.

(** With no model answering, the extraction returns the reconciled draft
    of the fallback, whose status is that of the keyword tiers: no
    override takes place. *)
Lemma fallback_status (text : string) :
  Str.strip text ≠ "" ->
  exists r,
    extract_claim_data no_backends text = Returned (Some r)
    /\ r !! "claim_status" = Some (VStr (regex_status (Str.lower text))).
Proof.
  intros Hblank. assert (Htext : text ≠ "") by (by intros ->).
  unfold extract_claim_data, model_strategy, no_backends.
  rewrite (bool_decide_eq_false_2 _ Htext), (bool_decide_eq_false_2 _ Hblank).
  cbn [orb openai_reply local_reply mbind option_bind].
  destruct (extract_claim_data_regex_total text) as (d & -> & Hst & Hdt).
  cbn [mbind option_bind].
  destruct (reconciliation_total d text) as (r & -> & Hr); [|done|].
  - eauto using claim_status_nonempty.
  - exists r. split; [done|]. by rewrite Hr.
Qed.

End Fallback.

(** ** Merge into a stored row *)

Lemma getattr_setattr_eq (field : string) (val : pyval) (c : Claim.t) :
  field ∈ merged_amount_fields ->
  Claim.getattr field (Claim.setattr field val c) = val.
Proof. intros Hf. key_cases Hf; reflexivity. Qed.

Lemma getattr_setattr_ne (f g : string) (val : pyval) (c : Claim.t) :
  f ≠ g ->
  Claim.getattr f (Claim.setattr g val c) = Claim.getattr f c.
Proof.
  intros Hne. unfold Claim.getattr, Claim.setattr. cbn.
  repeat (case_bool_decide; simplify_eq; try done).
Qed.

Lemma claim_amount_setattr (g : string) (val : pyval) (c : Claim.t) :
  g ∈ merged_amount_fields ->
  Claim.claim_amount (Claim.setattr g val c) = Claim.claim_amount c.
Proof. intros Hg. key_cases Hg; reflexivity. Qed.

Lemma merged_amount_fields_NoDup : NoDup merged_amount_fields.
Proof. apply (bool_decide_unpack _). by vm_compute. Qed.

(** The amount loop over any part of its field list. *)
Lemma fold_amounts_getattr (d : dict) (fields : list string) (c : Claim.t)
    (f : string) :
  NoDup fields ->
  fields ⊆ merged_amount_fields ->
  Claim.getattr f
    (foldl (fun c field =>
              let val := get d field in
              if provided_nonzero val then Claim.setattr field val c else c)
       c fields)
  = if decide (f ∈ fields)
    then if provided_nonzero (get d f) then get d f else Claim.getattr f c
    else Claim.getattr f c.
Proof.
  revert c. induction fields as [|g fields IH]; intros c Hnd Hsub.
  - by rewrite decide_False by apply not_elem_of_nil.
  - apply NoDup_cons in Hnd as [Hg Hnd]. cbn [foldl].
    rewrite IH; [|done|set_solver].
    destruct (decide (f = g)) as [->|Hne].
    + rewrite (decide_False (P := g ∈ fields)) by done.
      rewrite (decide_True (P := g ∈ g :: fields)) by apply list_elem_of_here.
      destruct (provided_nonzero (get d g)); [|done].
      apply getattr_setattr_eq. apply Hsub, list_elem_of_here.
    + assert (Hfr : Claim.getattr f
                      (if provided_nonzero (get d g)
                       then Claim.setattr g (get d g) c else c)
                    = Claim.getattr f c).
      { destruct (provided_nonzero (get d g)); [|done].
        by apply getattr_setattr_ne. }
      rewrite Hfr.
      destruct (decide (f ∈ fields)) as [Hin|Hin].
      * by rewrite decide_True by (by apply list_elem_of_further).
      * rewrite decide_False; [done|].
        intros [?|?]%elem_of_cons; done.
Qed.

Lemma fold_amounts_claim_amount (d : dict) (fields : list string) (c : Claim.t) :
  fields ⊆ merged_amount_fields ->
  Claim.claim_amount
    (foldl (fun c field =>
              let val := get d field in
              if provided_nonzero val then Claim.setattr field val c else c)
       c fields)
  = Claim.claim_amount c.
Proof.
  revert c. induction fields as [|g fields IH]; intros c Hsub; [done|].
  cbn [foldl]. rewrite IH by set_solver.
  destruct (provided_nonzero (get d g)); [|done].
  apply claim_amount_setattr. apply Hsub, list_elem_of_here.
Qed.

Section ResolverTheorems.
Context {rt : Runtime}.

Lemma merge_claim_getattr (c : Claim.t) (uid : string) (email_date now : Z)
    (p_name : pyval) (d : dict) (f : string) :
  f ∈ merged_amount_fields ->
  Claim.getattr f (merge_claim c uid email_date now p_name d)
  = if provided_nonzero (get d f) then get d f else Claim.getattr f c.
Proof.
  intros Hf. unfold merge_claim.
  match goal with
  | |- Claim.getattr f ?final = _ =>
      match final with
      | context [merge_amounts d ?u] =>
          transitivity (Claim.getattr f (merge_amounts d u));
            [by key_cases Hf|]
      end
  end.
  unfold merge_amounts.
  rewrite fold_amounts_getattr by (apply merged_amount_fields_NoDup || done).
  rewrite decide_True by done.
  destruct (provided_nonzero (get d f)); [done|]. by key_cases Hf.
Qed.

(** C4 (as amended). A merge overwrites each of the amount columns
    approved, settled, rejected, outstanding, total bill, patient
    payable, coverage percent and balance with the value of the draft
    exactly when that value is there and is not zero, and leaves the
    column as it was otherwise; the claim-amount column is never
    written. *)
Theorem merge_amounts_policy (c : Claim.t) (uid : string) (email_date now : Z)
    (p_name : pyval) (d : dict) :
  (forall f, f ∈ merged_amount_fields ->
     Claim.getattr f (merge_claim c uid email_date now p_name d)
     = if provided_nonzero (get d f) then get d f else Claim.getattr f c)
  /\ Claim.claim_amount (merge_claim c uid email_date now p_name d)
     = Claim.claim_amount c.
Proof.
  split; [intros f Hf; by apply merge_claim_getattr|].
  unfold merge_claim. cbn [Claim.claim_amount]. unfold merge_amounts.
  by rewrite fold_amounts_claim_amount.
Qed.

End ResolverTheorems.


(** The follow-up of the design: the stored 500 stays when the draft
    reports a settled amount of zero. *)
Lemma merge_keeps_settled_500 :
  Claim.settled_amount
    (merge_claim (rt := blank_runtime) stored_claim "8" 150 200
       (VStr "Asha Rao") followup_draft)
  = VNum (Qc_of_Z 500).
Proof.
  pose proof (proj1 (merge_amounts_policy (rt := blank_runtime) stored_claim
                       "8" 150%Z 200%Z (VStr "Asha Rao") followup_draft)
                "settled_amount" ltac:(solve_key)) as Hs.
  exact Hs.
Defined.

(** C4 as stated fails on the claim amount: the draft brings 700, the row
    keeps its 1000. *)
Lemma merge_ignores_claim_amount :
  provided_nonzero (get followup_draft "claim_amount") = true
  /\ Claim.claim_amount
       (merge_claim (rt := blank_runtime) stored_claim "8" 150 200
          (VStr "Asha Rao") followup_draft)
     ≠ get followup_draft "claim_amount".
Proof. split; [reflexivity|]. vm_compute. discriminate. Qed.

(** ** Stale messages, settled merges and silent drops *)

Lemma fold_amounts_claim_status (d : dict) (fields : list string) (c : Claim.t) :
  Claim.claim_status
    (foldl (fun c field =>
              let val := get d field in
              if provided_nonzero val then Claim.setattr field val c else c)
       c fields)
  = Claim.claim_status c.
Proof.
  revert c. induction fields as [|g fields IH]; intros c; [done|].
  cbn [foldl]. rewrite IH. by destruct (provided_nonzero (get d g)).
Qed.

Lemma provided_nonzero_zero : provided_nonzero (VNum 0) = false.
Proof. reflexivity. Qed.

Section StaleAndSettled.
Context {rt : Runtime}.

Lemma merge_claim_status (c : Claim.t) (uid : string) (email_date now : Z)
    (p_name : pyval) (d : dict) :
  Claim.claim_status (merge_claim c uid email_date now p_name d)
  = py_or (get d "claim_status") (Claim.claim_status c).
Proof.
  unfold merge_claim. cbn [Claim.claim_status]. unfold merge_amounts.
  by rewrite fold_amounts_claim_status.
Qed.

(** C9. Merging a reconciled Settled draft into a row whose balance is
    not zero sets the status of the row to Settled and leaves its
    balance at the value it had: the draft's balance is zero, and a zero
    is never written. *)
Theorem settled_merge_keeps_balance (c : Claim.t) (uid : string)
    (email_date now : Z) (p_name : pyval) (d : dict) (text : string)
    (q : Qc) :
  d !! "claim_status" = Some (VStr "Settled") ->
  dates_well_typed d = true ->
  Claim.balance_amount c = VNum q ->
  q ≠ 0%Qc ->
  exists d',
    apply_financial_formulas d text = Some d'
    /\ d' !! "claim_status" = Some (VStr "Settled")
    /\ d' !! "balance_amount" = Some (VNum 0)
    /\ Claim.claim_status (merge_claim c uid email_date now p_name d')
       = VStr "Settled"
    /\ Claim.balance_amount (merge_claim c uid email_date now p_name d')
       = VNum q.
Proof.
  intros Hst Hdt Hbal Hq.
  destruct (reconcile_settled d text Hst Hdt)
    as (d' & Hd' & _ & _ & Hba & _ & _ & Hst').
  exists d'. split; [done|]. split; [done|]. split; [done|]. split.
  - rewrite merge_claim_status. by rewrite (get_Some _ _ _ Hst').
  - change (Claim.getattr "balance_amount"
              (merge_claim c uid email_date now p_name d') = VNum q).
    rewrite merge_claim_getattr by solve_key.
    rewrite (get_Some _ _ _ Hba), provided_nonzero_zero. exact Hbal.
Qed.

Lemma identified_nonempty (d : dict) :
  identified d = true -> dict_empty d = false.
Proof.
  unfold identified, dict_empty. intros Hid.
  apply bool_decide_eq_false_2. intros ->.
  unfold get in Hid. by rewrite !lookup_empty in Hid.
Qed.

(** C7 (as amended). A message whose draft carries a patient name or a
    claim number, which resolves to a stored row and is strictly older
    than the message last recorded on that row, changes no row, adds no
    history entry and is logged once, as Skipped with the reason
    "Newer data exists". *)
Theorem stale_message_skipped (uid : string) (email_date now : Z)
    (subject : string) (d : dict) (db : store) (i : nat) (c : Claim.t)
    (stored : Z) :
  identified d = true ->
  matched_claim db uid d = Some (i, c) ->
  Claim.email_date c = Some stored ->
  (email_date < stored)%Z ->
  let db' :=
    process_single_email uid email_date now subject (Returned (Some d)) db in
  claims db' = claims db
  /\ history db' = history db
  /\ logs db'
     = (logs db
        ++ [log_entry subject "Skipped" (Some "Newer data exists") now])%list.
Proof.
  intros Hid Hmatch Hdate Hlt db'.
  assert (Hdb' : db' = add_log (log_entry subject "Skipped"
                                  (Some "Newer data exists") now) db).
  { unfold db', process_single_email.
    rewrite (identified_nonempty _ Hid).
    unfold identified in Hid. apply negb_true_iff in Hid. rewrite Hid.
    unfold matched_claim in Hmatch.
    destruct (placeholder_name (get d "patient_name") d) as [p d2].
    rewrite Hmatch, Hdate. by rewrite bool_decide_eq_true_2. }
  by rewrite Hdb'.
Qed.

(** The two silent returns of the create branch: no row matches, there
    is no claim number, and the hospital id is missing. *)
Lemma unmatched_without_identifiers_silent (uid : string)
    (email_date now : Z) (subject : string) (d : dict) (db : store) :
  identified d = true ->
  matched_claim db uid d = None ->
  truthy (get d "claim_number") = false ->
  truthy (get d "uhid_mrn") = false ->
  process_single_email uid email_date now subject (Returned (Some d)) db = db.
Proof.
  intros Hid Hmatch Hno Huh. unfold process_single_email.
  rewrite (identified_nonempty _ Hid).
  unfold identified in Hid. apply negb_true_iff in Hid. rewrite Hid.
  unfold matched_claim in Hmatch. unfold placeholder_name in *.
  rewrite Hno in Hid. rewrite andb_true_r in Hid. rewrite Hid in *.
  rewrite Hmatch, Hno, Huh. cbn. by rewrite orb_true_r.
Qed.

End StaleAndSettled.

(** A Settled advice merged into the stored row of claim ABC1: the row
    becomes Settled and still shows its balance of 300. *)
Lemma settled_merge_example :
  settled_draft !! "claim_status" = Some (VStr "Settled")
  /\ dates_well_typed settled_draft = true
  /\ Claim.balance_amount stored_claim = VNum (Qc_of_Z 300)
  /\ Qc_of_Z 300 ≠ 0%Qc
  /\ exists d',
       apply_financial_formulas (rt := blank_runtime) settled_draft "" = Some d'
       /\ Claim.claim_status
            (merge_claim (rt := blank_runtime) stored_claim "8" 150 200
               (VStr "Asha Rao") d') = VStr "Settled"
       /\ Claim.balance_amount
            (merge_claim (rt := blank_runtime) stored_claim "8" 150 200
               (VStr "Asha Rao") d') = VNum (Qc_of_Z 300).
Proof.
  assert (Hq : Qc_of_Z 300 ≠ 0%Qc) by (intros Heq; by inversion Heq).
  split; [reflexivity|]. split; [reflexivity|]. split; [reflexivity|].
  split; [exact Hq|].
  destruct (settled_merge_keeps_balance (rt := blank_runtime) stored_claim "8"
              150%Z 200%Z (VStr "Asha Rao") settled_draft "" (Qc_of_Z 300)
              eq_refl eq_refl eq_refl Hq)
    as (d' & Hd' & _ & _ & Hst & Hba).
  exists d'. split; [exact Hd'|]. split; [exact Hst|exact Hba].
Defined.

(** An older message about claim ABC1 leaves the store as it is and is
    logged as skipped. *)
Lemma stale_message_example :
  identified (rt := blank_runtime) followup_draft = true
  /\ matched_claim (rt := blank_runtime) one_claim_store "5" followup_draft
     = Some (0, stored_claim)
  /\ (50 < 100)%Z
  /\ claims (process_single_email (rt := blank_runtime) "5" 50 200 "Re: ABC1"
               (Returned (Some followup_draft)) one_claim_store)
     = [stored_claim]
  /\ history (process_single_email (rt := blank_runtime) "5" 50 200 "Re: ABC1"
                (Returned (Some followup_draft)) one_claim_store)
     = []
  /\ logs (process_single_email (rt := blank_runtime) "5" 50 200 "Re: ABC1"
             (Returned (Some followup_draft)) one_claim_store)
     = [log_entry "Re: ABC1" "Skipped" (Some "Newer data exists") 200].
Proof.
  assert (Hlt : (50 < 100)%Z) by lia.
  split; [reflexivity|]. split; [reflexivity|]. split; [exact Hlt|].
  exact (stale_message_skipped (rt := blank_runtime) "5" 50%Z 200%Z "Re: ABC1"
           followup_draft one_claim_store 0 stored_claim 100%Z
           eq_refl eq_refl eq_refl Hlt).
Defined.

(** C7 as stated fails when the draft names neither a patient nor a claim:
    the message resolves to the stored row through its identifier and is
    older, yet the reason logged is that of the validation. *)
Lemma stale_anonymous_message_reason :
  matched_claim (rt := blank_runtime) one_claim_store "7" anonymous_draft
  = Some (0, stored_claim)
  /\ Claim.email_date stored_claim = Some 100%Z
  /\ (50 < 100)%Z
  /\ logs (process_single_email (rt := blank_runtime) "7" 50 200 "Re: ABC1"
             (Returned (Some anonymous_draft)) one_claim_store)
     = [log_entry "Re: ABC1" "Skipped"
          (Some "No Patient Name (Validation Failed)") 200]
  /\ logs (process_single_email (rt := blank_runtime) "7" 50 200 "Re: ABC1"
             (Returned (Some anonymous_draft)) one_claim_store)
     ≠ (logs one_claim_store
        ++ [log_entry "Re: ABC1" "Skipped" (Some "Newer data exists") 200])%list.
Proof.
  split; [reflexivity|]. split; [reflexivity|]. split; [lia|].
  split; [reflexivity|]. vm_compute. discriminate.
Qed.

(** C8: the code at the failing input.  The model returns a draft with a
    patient name and neither claim number nor hospital id; nothing in the
    store matches; the message is dropped and no log entry is written. *)
Lemma insufficient_identifiers_not_logged :
  exists r,
    extract_claim_data (rt := blank_runtime)
      {| openai_reply := Some name_only_draft; local_reply := None |}
      "Patient Ravi Kumar was admitted yesterday"
    = Returned (Some r)
    /\ r !! "patient_name" = Some (VStr "Ravi Kumar")
    /\ logs (process_single_email (rt := blank_runtime) "9" 50 200 "Admission"
               (Returned (Some r)) empty_store)
       = [].
Proof.
  eexists. split; [vm_compute; reflexivity|].
  split; vm_compute; reflexivity.
Qed.


(** ** Every outcome of one message *)

Section Outcomes.
Context {rt : Runtime}.

Lemma find_existing_lookup (db : store) (uid : string) (claim_no p_name : pyval)
    (d : dict) (i : nat) (c : Claim.t) :
  find_existing db uid claim_no p_name d = Some (i, c) ->
  claims db !! i = Some c.
Proof.
  unfold find_existing.
  repeat (case_bool_decide || case_match); simplify_eq/=;
    intros Hf; try done;
    repeat match goal with
           | Hx : list_find _ _ = Some _ |- _ =>
               apply list_find_Some in Hx as (? & _ & _)
           | Hx : _ = Some (i, c) |- _ => rewrite Hx in *
           end; simplify_eq; try done;
    by apply list_find_Some in Hf as (? & _ & _).
Qed.

(** The update branch as a whole: a message that resolves to a stored
    row and is not older than it replaces the row by the merged one and is
    logged as a success. *)
Lemma fresh_message_merged (uid : string) (email_date now : Z)
    (subject : string) (d : dict) (db : store) (i : nat) (c : Claim.t) :
  identified d = true ->
  matched_claim db uid d = Some (i, c) ->
  (forall stored, Claim.email_date c = Some stored -> (stored <= email_date)%Z) ->
  let db' :=
    process_single_email uid email_date now subject (Returned (Some d)) db in
  let '(p_name, d2) := placeholder_name (get d "patient_name") d in
  claims db' !! i = Some (merge_claim c uid email_date now p_name d2)
  /\ logs db' = (logs db ++ [log_entry subject "Success" None now])%list.
Proof.
  intros Hid Hmatch Hfresh db'. unfold db', process_single_email.
  rewrite (identified_nonempty _ Hid).
  unfold identified in Hid. apply negb_true_iff in Hid. rewrite Hid.
  unfold matched_claim in Hmatch.
  destruct (placeholder_name (get d "patient_name") d) as [p d2].
  rewrite Hmatch.
  assert (Hstale : match Claim.email_date c with
                   | Some stored => bool_decide (email_date < stored)%Z
                   | None => false
                   end = false).
  { destruct (Claim.email_date c) as [stored|]; [|done].
    apply bool_decide_eq_false_2. specialize (Hfresh stored eq_refl). lia. }
  rewrite Hstale. cbn [claims logs add_log]. split; [|done].
  apply list_lookup_insert_eq.
  apply find_existing_lookup in Hmatch. by apply lookup_lt_Some in Hmatch.
Qed.

(** One message appends exactly one log entry, except where the create
    branch drops it, in which case the store is what it was. *)
Lemma log_once_unless_dropped (uid : string) (email_date now : Z)
    (subject : string) (extraction : outcome) (db : store) :
  (exists entry,
     logs (process_single_email uid email_date now subject extraction db)
     = (logs db ++ [entry])%list)
  \/ process_single_email uid email_date now subject extraction db = db.
Proof.
  unfold process_single_email.
  destruct extraction as [detail|[d|]]; [left; eauto..| |left; eauto].
  destruct (dict_empty d); [left; eauto|].
  destruct (name_missing (get d "patient_name")
            && negb (truthy (get d "claim_number"))); [left; eauto|].
  destruct (placeholder_name (get d "patient_name") d) as [p d2].
  destruct (find_existing db uid (get d "claim_number") p d2) as [[i c]|].
  - destruct (match Claim.email_date c with
              | Some stored => bool_decide (email_date < stored)%Z
              | None => false
              end); left; eauto.
  - repeat case_match; (by right) || (left; eauto).
Qed.

End Outcomes.


(** * Further properties *)

(** ** The reconciliation, field by field *)

Lemma max0_nonneg (x : Qc) : (0 ≤ max0 x)%Qc.
Proof.
  unfold max0. case_decide; [by apply Qclt_le_weak|done].
Qed.

Lemma amount_nonneg (d : dict) (k : string) :
  not_negative (get_or d k (VNum 0)) -> (0 ≤ amount d k)%Qc.
Proof.
  unfold amount, not_negative.
  destruct (get_or d k (VNum 0)) as [|s|q]; cbn; intros Hq;
    [done|apply float_or_zero_nonneg|done].
Qed.

Lemma reconciled_rejected_nonneg (r t a : Qc) :
  (0 ≤ r)%Qc -> (0 ≤ reconciled_rejected r t a)%Qc.
Proof.
  intros Hr. unfold reconciled_rejected.
  repeat case_bool_decide; auto using max0_nonneg.
Qed.

Section ReconciliationFields.
Context {rt : Runtime}.

(** Step 3 on numeric amounts, with the claimed amount. *)
Lemma backfill_totals_fields (d : dict) (t c s : Qc) :
  d !! "total_bill_amount" = Some (VNum t) ->
  d !! "claim_amount" = Some (VNum c) ->
  d !! "settled_amount" = Some (VNum s) ->
  let T := if decide (t = 0%Qc) then
             if decide (0 < c)%Qc then c
             else if decide (0 < s)%Qc then s else t
           else t in
  exists d',
    backfill_totals d = Some d'
    /\ d' !! "total_bill_amount" = Some (VNum T)
    /\ d' !! "claim_amount" = Some (VNum (if decide (c = 0%Qc) then T else c))
    /\ forall k, k ≠ "total_bill_amount" -> k ≠ "claim_amount" ->
                 d' !! k = d !! k.
Proof.
  intros Ht Hc Hs T. unfold T, backfill_totals.
  rewrite (get_Some _ _ _ Ht), (get_Some _ _ _ Hc), (get_Some _ _ _ Hs).
  rewrite falsy_or_zero_num, !and_gt0_num. cbn [mbind option_bind].
  destruct (decide (t = 0%Qc)) as [Htz|Htz];
    [rewrite (bool_decide_eq_true_2 _ Htz)
    |rewrite (bool_decide_eq_false_2 _ Htz)];
    [destruct (decide (0 < c)%Qc) as [Hcp|Hcp];
      [rewrite (bool_decide_eq_true_2 _ Hcp)
      |rewrite (bool_decide_eq_false_2 _ Hcp);
       destruct (decide (0 < s)%Qc) as [Hsp|Hsp];
         [rewrite (bool_decide_eq_true_2 _ Hsp)
         |rewrite (bool_decide_eq_false_2 _ Hsp)]]|];
    cbn [mbind option_bind];
    (erewrite (get_Some _ "claim_amount")
       by (rewrite ?lookup_insert_ne by done; exact Hc));
    rewrite falsy_or_zero_num;
    (destruct (decide (c = 0%Qc)) as [Hcz|Hcz];
     [rewrite (bool_decide_eq_true_2 _ Hcz)
     |rewrite (bool_decide_eq_false_2 _ Hcz)]);
    (eexists; split; [done|]; split; [|split];
     [ by rewrite ?lookup_insert_eq, ?lookup_insert_ne, ?lookup_insert_eq by done
     | unfold get_or;
       rewrite ?lookup_insert_eq, ?lookup_insert_ne, ?lookup_insert_eq, ?Ht, ?Hc
         by done; done
     | intros k Hk Hk'; by rewrite ?lookup_insert_ne by done ]).
Qed.

(** Step 4 on numeric amounts: every key it writes, by status. *)
Lemma business_formulas_fields (d : dict) (t a s r : Qc) :
  d !! "total_bill_amount" = Some (VNum t) ->
  d !! "approved_amount" = Some (VNum a) ->
  d !! "settled_amount" = Some (VNum s) ->
  d !! "rejected_amount" = Some (VNum r) ->
  let pending := bool_decide (status_of d = VStr "Pending") in
  let settled := bool_decide (status_of d = VStr "Settled") in
  exists d',
    business_formulas d = Some d'
    /\ d' !! "approved_amount" = Some (VNum (if pending then 0%Qc else a))
    /\ d' !! "settled_amount" = Some (VNum (if pending then 0%Qc else s))
    /\ d' !! "rejected_amount"
       = Some (VNum (if pending then 0%Qc else reconciled_rejected r t a))
    /\ d' !! "patient_payable_amount"
       = Some (VNum (if pending then 0%Qc
                     else if settled then max0 (t - s) else max0 (t - a)))
    /\ d' !! "balance_amount"
       = Some (VNum (if pending then t
                     else if settled then 0%Qc else max0 (a - s)))
    /\ d' !! "outstanding_amount" = d' !! "balance_amount"
    /\ forall k, k ∉ ["approved_amount"; "settled_amount"; "rejected_amount";
                      "patient_payable_amount"; "balance_amount";
                      "outstanding_amount"] ->
                 d' !! k = d !! k.
Proof.
  intros Ht Ha Hs Hr pending settled. unfold pending, settled, status_of.
  unfold business_formulas, reconciled_rejected.
  rewrite (get_or_Some _ _ _ _ Ht), (get_or_Some _ _ _ _ Ha),
    (get_or_Some _ _ _ _ Hr), (get_or_Some _ _ _ _ Hs).
  cbn [as_num mbind option_bind py_eq0].
  generalize (get_or d "claim_status" (VStr "Pending")). intros st.
  destruct (bool_decide (r = 0%Qc));
    [|destruct (bool_decide (1 < _)%Qc)];
    destruct (bool_decide (st = VStr "Pending"));
    try destruct (bool_decide (st = VStr "Settled"));
    try destruct (bool_decide (st = VStr "Approved"));
    cbn [mbind option_bind]; unfold get_or;
    (eexists; split; [done|]);
    (split; [by simplify_map_eq|]); (split; [by simplify_map_eq|]);
    (split; [by simplify_map_eq|]); (split; [by simplify_map_eq|]);
    (split; [by simplify_map_eq|]); (split; [by simplify_map_eq|]);
    intros k Hk; rewrite !lookup_insert_ne; try done;
    intros Heq; subst k; apply Hk; solve_key.
Qed.

(** The whole reconciliation of a non-empty draft with well-typed dates:
    it returns, and each amount it returns is a function of the coerced
    amounts and of the status. *)
Lemma reconcile_fields (d : dict) (text : string) :
  dict_empty d = false ->
  dates_well_typed d = true ->
  let pending := bool_decide (status_of d = VStr "Pending") in
  let settled := bool_decide (status_of d = VStr "Settled") in
  let T := backfilled_total d in
  let a := amount d "approved_amount" in
  let s := amount d "settled_amount" in
  let r := amount d "rejected_amount" in
  exists d',
    apply_financial_formulas d text = Some d'
    /\ d' !! "claim_status" = d !! "claim_status"
    /\ d' !! "total_bill_amount" = Some (VNum T)
    /\ d' !! "claim_amount" = Some (VNum (backfilled_claim_amount d))
    /\ d' !! "approved_amount" = Some (VNum (if pending then 0%Qc else a))
    /\ d' !! "settled_amount" = Some (VNum (if pending then 0%Qc else s))
    /\ d' !! "rejected_amount"
       = Some (VNum (if pending then 0%Qc else reconciled_rejected r T a))
    /\ d' !! "patient_payable_amount"
       = Some (VNum (if pending then 0%Qc
                     else if settled then max0 (T - s) else max0 (T - a)))
    /\ d' !! "balance_amount"
       = Some (VNum (if pending then T
                     else if settled then 0%Qc else max0 (a - s)))
    /\ d' !! "outstanding_amount" = d' !! "balance_amount".
Proof.
  intros Hne Hdt pending settled T a s r.
  unfold apply_financial_formulas. rewrite Hne.
  destruct (reconcile_prefix d Hdt) as (d2 & -> & Hfin & Hst2).
  cbn [mbind option_bind].
  destruct (backfill_totals_fields d2
              (amount d "total_bill_amount") (amount d "claim_amount")
              (amount d "settled_amount"))
    as (d3 & -> & Ht3 & Hc3 & Hfr3); [apply Hfin; solve_key..|].
  cbn [mbind option_bind].
  assert (Hst3 : status_of d3 = status_of d).
  { unfold status_of, get_or. by rewrite Hfr3, Hst2. }
  destruct (business_formulas_fields d3 T a s r)
    as (d' & Hd' & Hap & Hse & Hre & Hpp & Hba & Hou & Hfr).
  - exact Ht3.
  - rewrite Hfr3 by done. apply Hfin. solve_key.
  - rewrite Hfr3 by done. apply Hfin. solve_key.
  - rewrite Hfr3 by done. apply Hfin. solve_key.
  - rewrite Hst3 in Hap, Hse, Hre, Hpp, Hba.
    exists d'. split; [done|].
    split; [by rewrite Hfr, Hfr3, Hst2 by (done || solve_key)|].
    split; [by rewrite Hfr by solve_key|].
    split; [by rewrite Hfr by solve_key|].
    done.
Qed.

End ReconciliationFields.


(** ** What the reconciliation returns *)

Lemma Qcabs_0 : Qcabs 0 = 0%Qc.
Proof. reflexivity. Qed.

Lemma Qcminus_diag (x : Qc) : (x - x)%Qc = 0%Qc.
Proof. ring. Qed.

Lemma reconciled_rejected_close (r t a : Qc) :
  (Qcabs (reconciled_rejected r t a - max0 (t - a)) ≤ 1)%Qc.
Proof.
  unfold reconciled_rejected.
  destruct (bool_decide (r = 0%Qc)).
  - by rewrite Qcminus_diag.
  - case_bool_decide as Hfar.
    + by rewrite Qcminus_diag.
    + by apply Qcnot_lt_le.
Qed.

Lemma backfilled_total_nonneg (d : dict) :
  not_negative (get_or d "total_bill_amount" (VNum 0)) ->
  (0 ≤ backfilled_total d)%Qc.
Proof.
  intros Ht. unfold backfilled_total. cbv zeta.
  repeat case_decide; auto using amount_nonneg, Qclt_le_weak.
Qed.

Lemma backfilled_claim_amount_nonneg (d : dict) :
  not_negative (get_or d "total_bill_amount" (VNum 0)) ->
  not_negative (get_or d "claim_amount" (VNum 0)) ->
  (0 ≤ backfilled_claim_amount d)%Qc.
Proof.
  intros Ht Hc. unfold backfilled_claim_amount.
  case_decide; auto using amount_nonneg, backfilled_total_nonneg.
Qed.

Section ReconciliationResults.
Context {rt : Runtime}.

Lemma date_not_ok_raises (v : pyval) :
  date_ok v = false -> truthy v = true /\ normalize_date_str v = None.
Proof.
  destruct v as [|s|q]; cbn; try done. intros Hq.
  unfold normalize_date_str. cbn. by rewrite Hq.
Qed.

Lemma normalize_date_fields_raises keys (d : dict) (f : string) :
  f ∈ keys -> date_ok (get d f) = false ->
  normalize_date_fields keys d = None.
Proof.
  revert d. induction keys as [|g keys IH]; intros d Hf Hbad.
  - by apply elem_of_nil in Hf.
  - cbn [normalize_date_fields].
    destruct (decide (f = g)) as [->|Hne].
    + destruct (date_not_ok_raises _ Hbad) as [-> ->]. done.
    + apply elem_of_cons in Hf as [?|Hf]; [done|].
      destruct (truthy (get d g)); [|by apply IH].
      destruct (normalize_date_str (get d g)) as [v|]; [|done].
      cbn [mbind option_bind]. apply IH; [done|].
      unfold get in *. by rewrite lookup_insert_ne.
Qed.

Lemma dates_ill_typed_inv (d : dict) :
  dates_well_typed d = false ->
  exists f, f ∈ date_fields /\ date_ok (get d f) = false.
Proof.
  unfold dates_well_typed, date_fields. cbn [forallb].
  rewrite !andb_false_iff. intros [H1|[H2|[H3|[H4|?]]]]; [..|done];
    eexists; (split; [|eassumption]); solve_key.
Qed.

Lemma reconciliation_raises (d : dict) (text : string) :
  dict_empty d = false ->
  dates_well_typed d = false ->
  apply_financial_formulas d text = None.
Proof.
  intros Hne Hbad. unfold apply_financial_formulas. rewrite Hne.
  destruct (dates_ill_typed_inv d Hbad) as (f & Hf & Hfbad).
  rewrite (normalize_date_fields_raises _ _ f); [done..|].
  unfold get in *.
  rewrite sanitize_text_fields_lookup, coerce_fields_lookup.
  rewrite decide_False by (key_cases Hf; solve_key).
  by rewrite decide_False by (key_cases Hf; solve_key).
Qed.


Lemma reconcile_nonneg (d : dict) (text : string) :
  dict_empty d = false ->
  dates_well_typed d = true ->
  (forall k, k ∈ financial_fields -> not_negative (get_or d k (VNum 0))) ->
  exists d',
    apply_financial_formulas d text = Some d'
    /\ d' !! "claim_status" = d !! "claim_status"
    /\ forall k, k ∈ financial_fields ->
         exists q, d' !! k = Some (VNum q) /\ (0 ≤ q)%Qc.
Proof.
  intros Hne Hdt Hnn.
  destruct (reconcile_fields d text Hne Hdt)
    as (d' & Hd' & Hst & Ht & Hc & Ha & Hs & Hr & Hp & Hb & Ho).
  assert (HT : (0 ≤ backfilled_total d)%Qc)
    by (apply backfilled_total_nonneg, Hnn; solve_key).
  assert (HC : (0 ≤ backfilled_claim_amount d)%Qc)
    by (apply backfilled_claim_amount_nonneg; apply Hnn; solve_key).
  assert (HA : (0 ≤ amount d "approved_amount")%Qc)
    by (apply amount_nonneg, Hnn; solve_key).
  assert (HS : (0 ≤ amount d "settled_amount")%Qc)
    by (apply amount_nonneg, Hnn; solve_key).
  assert (HR : (0 ≤ amount d "rejected_amount")%Qc)
    by (apply amount_nonneg, Hnn; solve_key).
  exists d'. split; [done|]. split; [done|]. intros k Hk.
  key_cases Hk; rewrite ?Ho; eexists; (split; [eassumption|]);
    repeat case_match;
    auto using max0_nonneg, reconciled_rejected_nonneg.
Qed.

(** X2. When no financial key of the draft holds a negative number, none
    of the eight amounts that the reconciliation returns is negative. *)
Theorem reconciliation_nonnegative (d : dict) (text : string) :
  dict_empty d = false ->
  dates_well_typed d = true ->
  (forall k, k ∈ financial_fields -> not_negative (get_or d k (VNum 0))) ->
  exists d',
    apply_financial_formulas d text = Some d'
    /\ forall k, k ∈ financial_fields ->
         exists q, d' !! k = Some (VNum q) /\ (0 ≤ q)%Qc.
Proof.
  intros Hne Hdt Hnn.
  destruct (reconcile_nonneg d text Hne Hdt Hnn) as (d' & Hd' & _ & Hq).
  eauto.
Qed.

(** X3. For a draft whose status is neither Pending nor Settled (Approved,
    Rejected, Queried, anything else) the returned balance is
    [max(0, approved - settled)] and the returned patient-payable amount
    is [max(0, total_bill - approved)], over the returned amounts; the
    outstanding amount equals the balance. *)
Theorem open_status_reconciliation (d : dict) (text : string) :
  dict_empty d = false ->
  dates_well_typed d = true ->
  status_of d ≠ VStr "Pending" ->
  status_of d ≠ VStr "Settled" ->
  exists d' t a s,
    apply_financial_formulas d text = Some d'
    /\ d' !! "total_bill_amount" = Some (VNum t)
    /\ d' !! "approved_amount" = Some (VNum a)
    /\ d' !! "settled_amount" = Some (VNum s)
    /\ d' !! "balance_amount" = Some (VNum (max0 (a - s)))
    /\ d' !! "patient_payable_amount" = Some (VNum (max0 (t - a)))
    /\ d' !! "outstanding_amount" = d' !! "balance_amount".
Proof.
  intros Hne Hdt Hnp Hns.
  destruct (reconcile_fields d text Hne Hdt)
    as (d' & Hd' & Hst & Ht & Hc & Ha & Hs & Hr & Hp & Hb & Ho).
  rewrite (bool_decide_eq_false_2 _ Hnp) in Ha, Hs, Hp, Hb.
  rewrite (bool_decide_eq_false_2 _ Hns) in Hp, Hb.
  exists d', (backfilled_total d), (amount d "approved_amount"),
    (amount d "settled_amount"). by repeat split.
Qed.

(** X4. For a draft whose status is not Pending, the returned rejected
    amount is never more than one unit away from
    [max(0, total_bill - approved)] over the returned amounts, and equals
    it when the draft's own rejected amount coerces to zero. *)
Theorem rejected_amount_reconciled (d : dict) (text : string) :
  dict_empty d = false ->
  dates_well_typed d = true ->
  status_of d ≠ VStr "Pending" ->
  exists d' t a r,
    apply_financial_formulas d text = Some d'
    /\ d' !! "total_bill_amount" = Some (VNum t)
    /\ d' !! "approved_amount" = Some (VNum a)
    /\ d' !! "rejected_amount" = Some (VNum r)
    /\ (Qcabs (r - max0 (t - a)) ≤ 1)%Qc
    /\ (amount d "rejected_amount" = 0%Qc -> r = max0 (t - a)).
Proof.
  intros Hne Hdt Hnp.
  destruct (reconcile_fields d text Hne Hdt)
    as (d' & Hd' & Hst & Ht & Hc & Ha & Hs & Hr & Hp & Hb & Ho).
  rewrite (bool_decide_eq_false_2 _ Hnp) in Ha, Hr.
  exists d', (backfilled_total d), (amount d "approved_amount"),
    (reconciled_rejected (amount d "rejected_amount") (backfilled_total d)
       (amount d "approved_amount")).
  split; [done|]. split; [done|]. split; [done|]. split; [done|].
  split; [apply reconciled_rejected_close|].
  intros Hz. unfold reconciled_rejected. by rewrite bool_decide_eq_true_2.
Qed.

(** X5. The returned claim amount is the draft's coerced claim amount, or
    the returned bill when that amount is zero; so it is zero only when the
    returned bill is zero as well. *)
Theorem claim_amount_backfilled (d : dict) (text : string) :
  dict_empty d = false ->
  dates_well_typed d = true ->
  exists d' t c,
    apply_financial_formulas d text = Some d'
    /\ d' !! "total_bill_amount" = Some (VNum t)
    /\ d' !! "claim_amount" = Some (VNum c)
    /\ c = (if decide (amount d "claim_amount" = 0%Qc) then t
            else amount d "claim_amount")
    /\ (c = 0%Qc -> t = 0%Qc).
Proof.
  intros Hne Hdt.
  destruct (reconcile_fields d text Hne Hdt)
    as (d' & Hd' & Hst & Ht & Hc & _).
  exists d', (backfilled_total d), (backfilled_claim_amount d).
  split; [done|]. split; [done|]. split; [done|]. split; [done|].
  unfold backfilled_claim_amount. case_decide; congruence.
Qed.

End ReconciliationResults.

(** ** Trimming *)

Lemma append_cons (a : ascii) (s t : string) :
  String a s +:+ t = String a (s +:+ t).
Proof. reflexivity. Qed.

Lemma append_nil_r (s : string) : s +:+ "" = s.
Proof. induction s as [|a s IH]; [done|]. by rewrite append_cons, IH. Qed.

Lemma append_assoc (s t u : string) : (s +:+ t) +:+ u = s +:+ (t +:+ u).
Proof. induction s as [|a s IH]; [done|]. by rewrite !append_cons, IH. Qed.

Lemma rev_app_rev_app (s t u : string) :
  String.rev_app (String.rev_app s t) u = String.rev_app t (s +:+ u).
Proof.
  revert t. induction s as [|a s IH]; intros t; [done|].
  cbn [String.rev_app]. by rewrite IH.
Qed.

Lemma rev_involutive (s : string) : String.rev (String.rev s) = s.
Proof.
  unfold String.rev. rewrite rev_app_rev_app. cbn [String.rev_app].
  apply append_nil_r.
Qed.

Lemma rev_app_append (s t u : string) :
  String.rev_app (s +:+ t) u = String.rev_app t (String.rev_app s u).
Proof.
  revert u. induction s as [|a s IH]; intros u; [done|].
  rewrite append_cons. cbn [String.rev_app]. by rewrite IH.
Qed.

Lemma rev_snoc (s : string) (a : ascii) :
  String.rev (s +:+ String a "") = String a (String.rev s).
Proof. unfold String.rev. by rewrite rev_app_append. Qed.

Lemma rev_cons (a : ascii) (s : string) :
  String.rev (String a s) = String.rev s +:+ String a "".
Proof.
  rewrite <- (rev_involutive (String.rev s +:+ String a "")).
  by rewrite rev_snoc, rev_involutive.
Qed.

Lemma lstrip_idemp (s : string) : Str.lstrip (Str.lstrip s) = Str.lstrip s.
Proof.
  induction s as [|a s IH]; [done|]. cbn [Str.lstrip].
  destruct (Str.is_space a) eqn:Ha; [done|]. cbn [Str.lstrip]. by rewrite Ha.
Qed.

Lemma lstrip_snoc (s : string) (a : ascii) :
  Str.is_space a = false ->
  Str.lstrip (s +:+ String a "") = Str.lstrip s +:+ String a "".
Proof.
  intros Ha. induction s as [|b s IH].
  - change (Str.lstrip (String a "") = String a "").
    cbn [Str.lstrip]. by rewrite Ha.
  - rewrite append_cons. cbn [Str.lstrip].
    destruct (Str.is_space b); [done|]. by rewrite append_cons.
Qed.

(** What [lstrip] leaves is empty or starts with a character that is not
    white space. *)
Lemma lstrip_head (s : string) :
  Str.lstrip s = ""
  \/ exists a t, Str.lstrip s = String a t /\ Str.is_space a = false.
Proof.
  induction s as [|a s IH]; [by left|]. cbn [Str.lstrip].
  destruct (Str.is_space a) eqn:Ha; [done|]. right. eauto.
Qed.

Lemma rstrip_idemp (s : string) : Str.rstrip (Str.rstrip s) = Str.rstrip s.
Proof. unfold Str.rstrip. by rewrite rev_involutive, lstrip_idemp. Qed.

Lemma rstrip_cons (a : ascii) (s : string) :
  Str.is_space a = false ->
  Str.rstrip (String a s) = String a (Str.rstrip s).
Proof.
  intros Ha. unfold Str.rstrip.
  by rewrite rev_cons, lstrip_snoc, rev_snoc.
Qed.

Lemma strip_idemp (s : string) : Str.strip (Str.strip s) = Str.strip s.
Proof.
  unfold Str.strip.
  destruct (lstrip_head s) as [->|(a & t & -> & Ha)]; [done|].
  rewrite rstrip_cons by done. cbn [Str.lstrip]. rewrite Ha.
  by rewrite rstrip_cons, rstrip_idemp.
Qed.

(** A trimmed string is empty or starts and ends without white space; in
    particular trimming it again changes nothing. *)
Lemma strip_empty_iff_all_space (s : string) :
  Str.strip s = "" <-> Str.all Str.is_space s = true.
Proof.
  unfold Str.strip. induction s as [|a s IH]; [done|].
  cbn [Str.lstrip Str.all]. destruct (Str.is_space a) eqn:Ha; [done|].
  rewrite rstrip_cons by done. done.
Qed.


(** ** Keys that the reconciliation leaves alone, and text it cleans *)

Lemma clean_none_string_no_placeholder (v : pyval) (s : string) :
  clean_none_string v = VStr s -> ~ placeholder_word s.
Proof.
  unfold clean_none_string, placeholder_word, Str.mem.
  destruct v as [|x|q]; [done| |done].
  case_bool_decide as Hin; cbn [orb]; [done|].
  case_bool_decide; [done|]. by intros [= ->].
Qed.

Section ReconciliationFrame.
Context {rt : Runtime}.

Lemma reconcile_frame (d : dict) (text : string) (k : string) :
  dict_empty d = false ->
  dates_well_typed d = true ->
  k ∉ financial_fields -> k ∉ date_fields ->
  exists d',
    apply_financial_formulas d text = Some d'
    /\ d' !! k = if decide (k ∈ text_fields)
                 then Some (sanitize_text k (d !! k)) else d !! k.
Proof.
  intros Hne Hdt Hkf Hkd. unfold apply_financial_formulas. rewrite Hne.
  destruct (reconcile_prefix d Hdt) as (d2 & Hd2 & Hfin & Hst2).
  destruct (normalize_date_fields_total date_fields
              (sanitize_text_fields (coerce_fields d))) as (d2' & Hd2' & Hfr2).
  { intros f Hf. unfold get.
    rewrite sanitize_text_fields_lookup, coerce_fields_lookup.
    unfold dates_well_typed in Hdt. rewrite forallb_forall in Hdt.
    specialize (Hdt f). rewrite <- list_elem_of_In in Hdt.
    specialize (Hdt Hf). unfold get in Hdt.
    rewrite decide_False by (key_cases Hf; solve_key).
    rewrite decide_False by (key_cases Hf; solve_key). done. }
  assert (d2' = d2) as -> by congruence.
  rewrite Hd2. cbn [mbind option_bind].
  destruct (backfill_totals_fields d2
              (amount d "total_bill_amount") (amount d "claim_amount")
              (amount d "settled_amount"))
    as (d3 & -> & Ht3 & Hc3 & Hfr3); [apply Hfin; solve_key..|].
  cbn [mbind option_bind].
  destruct (business_formulas_fields d3 (backfilled_total d)
              (amount d "approved_amount") (amount d "settled_amount")
              (amount d "rejected_amount"))
    as (d' & Hd' & _ & _ & _ & _ & _ & _ & Hfr).
  - exact Ht3.
  - rewrite Hfr3 by done. apply Hfin. solve_key.
  - rewrite Hfr3 by done. apply Hfin. solve_key.
  - rewrite Hfr3 by done. apply Hfin. solve_key.
  - exists d'. split; [done|].
    assert (Hsub : forall l, l ⊆ financial_fields -> k ∉ l)
      by (intros l Hl Hin; apply Hkf, Hl, Hin).
    rewrite Hfr by (apply Hsub; intros x Hx; key_cases Hx; solve_key).
    rewrite Hfr3 by (intros ->; apply Hkf; solve_key).
    rewrite Hfr2 by done.
    rewrite sanitize_text_fields_lookup, coerce_fields_lookup.
    by rewrite (decide_False (P := k ∈ financial_fields)).
Qed.

(** X6. The reconciliation writes only the financial, text and date keys
    it names: every other key of the draft (the status, the claim type,
    the coverage percent, any key the model added) comes back with the
    value it had, or stays absent. *)
Theorem reconciliation_frame (d : dict) (text : string) :
  dict_empty d = false ->
  dates_well_typed d = true ->
  exists d',
    apply_financial_formulas d text = Some d'
    /\ forall k, k ∉ financial_fields -> k ∉ text_fields -> k ∉ date_fields ->
                 d' !! k = d !! k.
Proof.
  intros Hne Hdt.
  destruct (reconciliation_total d text Hne Hdt) as (d' & Hd' & _).
  exists d'. split; [done|]. intros k Hkf Hkt Hkd.
  destruct (reconcile_frame d text k Hne Hdt Hkf Hkd) as (d'' & Hd'' & Hk).
  assert (d'' = d') as -> by congruence.
  by rewrite Hk, decide_False.
Qed.

(** X7. After the reconciliation the keys uhid_mrn, insurance_company,
    tpa_name and remarks are always present; each holds the draft's value
    passed through [clean_none_string], so a string left there is never
    one of the placeholder words none, n/a, null, unknown or blank. *)
Theorem reconciliation_cleans_text (d : dict) (text : string) :
  dict_empty d = false ->
  dates_well_typed d = true ->
  exists d',
    apply_financial_formulas d text = Some d'
    /\ forall k, k ∈ ["uhid_mrn"; "insurance_company"; "tpa_name"; "remarks"] ->
         d' !! k = Some (clean_none_string (get d k))
         /\ forall s, d' !! k = Some (VStr s) -> ~ placeholder_word s.
Proof.
  intros Hne Hdt.
  destruct (reconciliation_total d text Hne Hdt) as (d' & Hd' & _).
  exists d'. split; [done|]. intros k Hk.
  assert (Hval : d' !! k = Some (clean_none_string (get d k))).
  { destruct (reconcile_frame d text k Hne Hdt) as (d'' & Hd'' & Hkk);
      [key_cases Hk; solve_key..|].
    assert (d'' = d') as -> by congruence.
    rewrite Hkk, decide_True by (key_cases Hk; solve_key).
    unfold sanitize_text, get. f_equal.
    key_cases Hk; cbn [bool_decide andb]; done. }
  split; [done|]. intros s Hs. rewrite Hval in Hs.
  injection Hs as Hs. by apply clean_none_string_no_placeholder in Hs.
Qed.

End ReconciliationFrame.

(** ** The cleaners *)

(** X8. Cleaning a claim number twice is cleaning it once, and a string
    that comes out of the cleaner carries no white space at either end. *)
Theorem clean_claim_number_idempotent (v : pyval) :
  clean_claim_number (clean_claim_number v) = clean_claim_number v
  /\ forall s, clean_claim_number v = VStr s -> Str.strip s = s.
Proof.
  assert (Hstr : forall c, c ≠ "" ->
            clean_claim_number (VStr c)
            = if Str.mem (Str.lower (Str.strip c)) junk_values
                 || (String.length (Str.lower (Str.strip c)) <? 4)%nat
                    && negb (Str.isdigit (Str.lower (Str.strip c)))
              then VNone else VStr (Str.strip c)).
  { intros c Hc. unfold clean_claim_number. cbn [truthy].
    rewrite (bool_decide_eq_false_2 _ Hc). cbn [negb].
    by destruct (Str.mem _ junk_values). }
  destruct v as [|c|q]; [by split| |by split].
  destruct (decide (c = "")) as [->|Hc].
  { split; [done|]. by intros s [= <-]. }
  rewrite (Hstr c Hc).
  destruct (Str.mem _ junk_values
            || (String.length _ <? 4)%nat && negb (Str.isdigit _)) eqn:Hrej;
    [split; [reflexivity|intros s [=]]|].
  assert (Hne : Str.strip c ≠ "").
  { intros Hempty. rewrite Hempty in Hrej. done. }
  split.
  - rewrite (Hstr _ Hne), strip_idemp. by rewrite Hrej.
  - intros s [= <-]. apply strip_idemp.
Qed.

Section PatientName.
Context {rt : Runtime}.

(** X9. [clean_patient_name] hands back anything that is not a non-empty
    string as it is, and turns a non-empty string into a string without
    white space at either end, whatever the substitutions did to it. *)
Theorem clean_patient_name_trimmed (name : pyval) :
  (truthy name = false \/ is_str name = false ->
   clean_patient_name name = name)
  /\ (truthy name = true -> is_str name = true ->
      exists m, clean_patient_name name = VStr m /\ Str.strip m = m).
Proof.
  unfold clean_patient_name. split.
  - destruct name as [|n|q]; [done| |done].
    intros [Hf|?]; [|done]. by rewrite Hf.
  - destruct name as [|n|q]; [done| |done].
    intros Ht _. rewrite Ht. cbn [negb]. eexists. split; [done|].
    apply strip_idemp.
Qed.

(** X10. [normalize_date_str] never raises on a string.  An empty string
    gives [None]; any other string gives a string, which is either a date
    that [strptime] produced from the trimmed text, or from its part
    before the first blank, under one of the listed formats, or else the
    trimmed text itself. *)
Theorem normalize_date_str_result (s : string) :
  (s = "" -> normalize_date_str (VStr s) = Some VNone)
  /\ (s ≠ "" ->
      exists w,
        normalize_date_str (VStr s) = Some (VStr w)
        /\ (w = Str.strip s
            \/ exists fmt x,
                 fmt ∈ date_formats
                 /\ (x = Str.strip s \/ x = Str.before_space (Str.strip s))
                 /\ strptime_iso x fmt = Some w)).
Proof.
  assert (Htry : forall fmts x w,
             try_formats fmts x = Some w ->
             exists fmt, fmt ∈ fmts /\ strptime_iso x fmt = Some w).
  { intros fmts x w. induction fmts as [|fmt fmts IH]; [done|].
    cbn [try_formats]. destruct (strptime_iso x fmt) as [d0|] eqn:Hp.
    - intros [= <-]. exists fmt. split; [apply list_elem_of_here|done].
    - intros (f & Hf & Hw)%IH. exists f.
      split; [by apply list_elem_of_further|done]. }
  split; [by intros ->|]. intros Hs.
  unfold normalize_date_str. cbn [truthy].
  rewrite (bool_decide_eq_false_2 _ Hs). cbn [negb].
  destruct (try_formats date_formats (Str.strip s)) as [w|] eqn:H1.
  { apply Htry in H1 as (fmt & Hf & Hw). exists w. split; [done|].
    right. exists fmt, (Str.strip s). eauto. }
  destruct (Str.contains " " (Str.strip s)); [|eauto].
  destruct (try_formats _ (Str.before_space (Str.strip s))) as [w|] eqn:H2;
    [|eauto].
  apply Htry in H2 as (fmt & Hf & Hw). exists w. split; [done|].
  right. exists fmt, (Str.before_space (Str.strip s)).
  split; [key_cases Hf; solve_key|eauto].
Qed.

End PatientName.


(** ** The orchestrator *)

(** X11. The payment-advice override never touches a key other than
    claim_status, returns the draft as it is when the text triggers
    nothing, and leaves under claim_status either what was there or
    Settled. *)
Theorem override_only_status (data : dict) (text : string) :
  (forall k, k ≠ "claim_status" ->
     override_status_for_payment_advice data text !! k = data !! k)
  /\ (payment_advice_detected (Str.lower text) = false ->
      override_status_for_payment_advice data text = data)
  /\ (override_status_for_payment_advice data text !! "claim_status"
      = data !! "claim_status"
      \/ override_status_for_payment_advice data text !! "claim_status"
         = Some (VStr "Settled")).
Proof.
  unfold override_status_for_payment_advice.
  destruct (dict_empty data || bool_decide (text = "")); [by auto|].
  destruct (payment_advice_detected (Str.lower text)); [|by auto].
  split; [intros k Hk; by rewrite lookup_insert_ne|].
  split; [done|]. right. by rewrite lookup_insert_eq.
Qed.

Lemma alpha_not_digit (a : ascii) :
  Str.is_alpha a = true -> Str.is_digit a = false.
Proof.
  unfold Str.is_alpha, Str.is_upper, Str.is_lower, Str.is_digit.
  rewrite orb_true_iff, !andb_true_iff, andb_false_iff, !N.leb_le, !N.leb_gt.
  lia.
Qed.

Lemma alpha_survives_filter (p : ascii -> bool) (s : string) :
  (forall a, Str.is_alpha a = true -> p a = true) ->
  Str.any Str.is_alpha s = true ->
  Str.all Str.is_digit (Str.filter p s) = false.
Proof.
  intros Hp. induction s as [|a s IH]; [done|].
  cbn [Str.any Str.filter]. intros Hany.
  destruct (Str.is_alpha a) eqn:Ha.
  - rewrite (Hp a Ha). cbn [Str.all]. by rewrite (alpha_not_digit a Ha).
  - cbn [orb] in Hany. destruct (p a); [|by apply IH].
    cbn [Str.all]. rewrite (IH Hany). apply andb_false_r.
Qed.

Lemma filter_filter (p q : ascii -> bool) (s : string) :
  Str.filter p (Str.filter q s) = Str.filter (fun a => q a && p a) s.
Proof.
  induction s as [|a s IH]; [done|]. cbn [Str.filter].
  destruct (q a); cbn [Str.filter andb]; [|done].
  destruct (p a); by rewrite IH.
Qed.

Lemma alpha_not_char (a c : ascii) :
  Str.is_alpha a = true -> Str.is_alpha c = false ->
  negb (bool_decide (a = c)) = true.
Proof. intros Ha Hc. case_bool_decide; [congruence|done]. Qed.

Lemma name_with_letter_not_numeric (n : string) :
  Str.any Str.is_alpha n = true ->
  Str.isdigit (Str.remove_char " " (Str.remove_char "-"
                 (Str.remove_char "." n))) = false.
Proof.
  intros Hany. unfold Str.isdigit, Str.remove_char.
  rewrite !filter_filter. rewrite alpha_survives_filter; [apply andb_false_r| |done].
  intros a Ha. by rewrite !alpha_not_char.
Qed.

Section OrchestratorExtras.
Context {rt : Runtime}.

(** X12. A non-empty draft without a patient name is valid, and one whose
    patient name is a non-empty string is valid exactly when the trimmed
    name has at least two characters and holds a letter; the test for
    purely numeric names rejects nothing beyond that. *)
Theorem validate_extraction_names (data : dict) :
  dict_empty data = false ->
  (truthy (get data "patient_name") = false ->
   validate_extraction data = true)
  /\ (forall s, get data "patient_name" = VStr s -> s ≠ "" ->
        validate_extraction data = true
        <-> (2 <= String.length (Str.strip s)
             /\ Str.any Str.is_alpha (Str.strip s) = true)).
Proof.
  intros Hne. unfold validate_extraction. rewrite Hne. split.
  - by intros ->.
  - intros s Hs Hnonempty. rewrite Hs. cbn [truthy py_str].
    rewrite (bool_decide_eq_false_2 _ Hnonempty). cbn [negb].
    destruct (Str.any Str.is_alpha (Str.strip s)) eqn:Hany.
    + rewrite name_with_letter_not_numeric by done.
      destruct (String.length (Str.strip s) <? 2)%nat eqn:Hlen; cbn [negb].
      * apply Nat.ltb_lt in Hlen. split; [done|]. intros [? _]. lia.
      * apply Nat.ltb_ge in Hlen. by split.
    + split; [|by intros [_ ?]]. by repeat case_match.
Qed.

Lemma reconciled_nonempty (d r : dict) (text : string) :
  dict_empty d = false ->
  apply_financial_formulas d text = Some r ->
  dates_well_typed d = true /\ dict_empty r = false.
Proof.
  intros Hne Hr.
  destruct (dates_well_typed d) eqn:Hdt.
  - split; [done|].
    destruct (reconcile_fields d text Hne Hdt) as (r' & Hr' & _ & Ht & _).
    assert (r' = r) as -> by congruence.
    apply bool_decide_eq_false_2. intros ->. by rewrite lookup_empty in Ht.
  - by rewrite reconciliation_raises in Hr.
Qed.

Lemma override_nonempty (data : dict) (text : string) :
  dict_empty data = false ->
  dict_empty (override_status_for_payment_advice data text) = false.
Proof.
  intros Hne. unfold override_status_for_payment_advice.
  repeat case_match; [done| |done].
  apply bool_decide_eq_false_2. intros Hempty.
  apply (f_equal (fun m : dict => m !! "claim_status")) in Hempty.
  by rewrite lookup_insert_eq, lookup_empty in Hempty.
Qed.

Lemma model_strategy_nonempty (reply : option dict) (post : dict -> dict)
    (text : string) (r : dict) :
  (forall d, dict_empty d = false -> dict_empty (post d) = false) ->
  model_strategy reply post text = Some r ->
  dict_empty r = false.
Proof.
  intros Hpost. unfold model_strategy.
  destruct reply as [data|]; [|done]. cbn [mbind option_bind].
  destruct (validate_extraction data) eqn:Hv; [|done].
  intros Hr. eapply reconciled_nonempty; [|exact Hr].
  eauto using validate_extraction_nonempty.
Qed.

(** X13. Whatever the model backends answer, [extract_claim_data] never
    raises: it returns [None] exactly for a blank text, and a non-empty
    draft for every other text. *)
Theorem extract_claim_data_total (b : backends) (text : string) :
  (Str.strip text = "" -> extract_claim_data b text = Returned None)
  /\ (Str.strip text ≠ "" ->
      exists r, extract_claim_data b text = Returned (Some r)
                /\ dict_empty r = false).
Proof.
  unfold extract_claim_data. split.
  - intros ->. by rewrite orb_true_r.
  - intros Hblank. assert (Htext : text ≠ "") by (by intros ->).
    rewrite (bool_decide_eq_false_2 _ Htext), (bool_decide_eq_false_2 _ Hblank).
    cbn [orb].
    destruct (model_strategy (openai_reply b) _ text) as [r|] eqn:H1.
    { exists r. split; [done|].
      eapply model_strategy_nonempty; [|exact H1].
      intros d Hd. by apply override_nonempty. }
    destruct (model_strategy (local_reply b) _ text) as [r|] eqn:H2.
    { exists r. split; [done|].
      eapply model_strategy_nonempty; [|exact H2]. done. }
    destruct (extract_claim_data_regex_total text) as (d & -> & Hst & Hdt).
    cbn [mbind option_bind].
    assert (Hne : dict_empty d = false) by eauto using claim_status_nonempty.
    destruct (reconciliation_total d text Hne Hdt) as (r & Hr & _).
    rewrite Hr. exists r. split; [done|].
    by destruct (reconciled_nonempty d r text Hne Hr).
Qed.

(** X14. When only the local model answers, with a draft that passes
    validation and has well-typed dates, the draft returned carries the
    status of that answer: no payment-advice override is applied on this
    branch. *)
Theorem local_model_status_kept (b : backends) (text : string) (data : dict) :
  Str.strip text ≠ "" ->
  openai_reply b = None ->
  local_reply b = Some data ->
  validate_extraction data = true ->
  dates_well_typed data = true ->
  exists r, extract_claim_data b text = Returned (Some r)
            /\ r !! "claim_status" = data !! "claim_status".
Proof.
  intros Hblank Hprimary Hlocal Hvalid Hdt.
  assert (Htext : text ≠ "") by (by intros ->).
  unfold extract_claim_data, model_strategy.
  rewrite (bool_decide_eq_false_2 _ Htext), (bool_decide_eq_false_2 _ Hblank).
  rewrite Hprimary, Hlocal. cbn [orb mbind option_bind]. rewrite Hvalid.
  destruct (reconciliation_total data text) as (r & -> & Hst);
    eauto using validate_extraction_nonempty.
Qed.

Lemma dates_well_typed_override (data : dict) (text : string) :
  dates_well_typed (override_status_for_payment_advice data text)
  = dates_well_typed data.
Proof.
  unfold override_status_for_payment_advice.
  repeat case_match; auto using dates_well_typed_insert_status.
Qed.

(** X15. A model answer whose date key holds a number other than zero makes
    the reconciliation raise; the orchestrator swallows the exception, and
    with no local model the result is the one of the regex fallback, as if
    no model had answered at all. *)
Theorem ill_typed_reply_falls_back (b : backends) (text : string) (data : dict) :
  openai_reply b = Some data ->
  local_reply b = None ->
  dict_empty data = false ->
  dates_well_typed data = false ->
  extract_claim_data b text = extract_claim_data no_backends text.
Proof.
  intros Hprimary Hlocal Hne Hdt.
  unfold extract_claim_data, model_strategy, no_backends.
  rewrite Hprimary, Hlocal. cbn [openai_reply local_reply mbind option_bind].
  destruct (validate_extraction data); [|done].
  rewrite reconciliation_raises;
    [done|by apply override_nonempty|by rewrite dates_well_typed_override].
Qed.

End OrchestratorExtras.


(** ** The regex fallback *)

(** X16. The status tiers of the fallback are tried in order.  A keyword
    of the Settled tier decides for Settled whatever else the text says;
    failing that, a keyword of the approval tier decides for Approved even
    where a rejection phrase such as "not approved" is present; and the
    status is always one of Settled, Approved, Rejected, Queried and
    Pending. *)
Theorem regex_status_priority (lower_text : string) :
  (any_in settled_tier lower_text = true -> regex_status lower_text = "Settled")
  /\ (any_in settled_tier lower_text = false ->
      any_in approval_tier lower_text = true ->
      regex_status lower_text = "Approved")
  /\ regex_status lower_text
     ∈ ["Settled"; "Approved"; "Rejected"; "Queried"; "Pending"].
Proof.
  unfold regex_status. fold settled_tier. fold approval_tier.
  destruct (any_in settled_tier lower_text).
  { split; [done|]. split; [done|]. solve_key. }
  destruct (any_in approval_tier lower_text).
  { split; [done|]. split; [done|]. solve_key. }
  split; [done|]. split; [done|].
  destruct (any_in _ lower_text); [solve_key|].
  destruct (any_in _ lower_text); [solve_key|].
  destruct (Str.contains "approved" lower_text); [solve_key|].
  destruct (Str.contains "rejected" lower_text); solve_key.
Qed.

(** ** The further properties at sample drafts *)


(** Bill 10000, approved 8000, settled 3000: no returned amount is
    negative. *)
Lemma part_paid_nonnegative :
  dict_empty part_paid_draft = false
  /\ dates_well_typed part_paid_draft = true
  /\ exists d',
       apply_financial_formulas (rt := blank_runtime) part_paid_draft "" = Some d'
       /\ forall k, k ∈ financial_fields ->
            exists q, d' !! k = Some (VNum q) /\ (0 ≤ q)%Qc.
Proof.
  split; [reflexivity|]. split; [reflexivity|].
  apply (reconciliation_nonnegative (rt := blank_runtime) part_paid_draft ""
           eq_refl eq_refl).
  intros k Hk. key_cases Hk; by vm_compute.
Defined.

(** Approved, bill 10000, approved 8000, settled 3000: the balance is
    [max(0, approved - settled)] and the patient owes
    [max(0, bill - approved)]. *)
Lemma part_paid_reconciliation :
  dict_empty part_paid_draft = false
  /\ dates_well_typed part_paid_draft = true
  /\ status_of part_paid_draft = VStr "Approved"
  /\ exists d' t a s,
       apply_financial_formulas (rt := blank_runtime) part_paid_draft "" = Some d'
       /\ d' !! "total_bill_amount" = Some (VNum t)
       /\ d' !! "approved_amount" = Some (VNum a)
       /\ d' !! "settled_amount" = Some (VNum s)
       /\ d' !! "balance_amount" = Some (VNum (max0 (a - s)))
       /\ d' !! "patient_payable_amount" = Some (VNum (max0 (t - a)))
       /\ d' !! "outstanding_amount" = d' !! "balance_amount".
Proof.
  split; [reflexivity|]. split; [reflexivity|]. split; [reflexivity|].
  apply (open_status_reconciliation (rt := blank_runtime) part_paid_draft ""
           eq_refl eq_refl); discriminate.
Defined.

(** The same draft carries no rejected amount: the returned one is
    [max(0, bill - approved)]. *)
Lemma part_paid_rejected :
  dict_empty part_paid_draft = false
  /\ dates_well_typed part_paid_draft = true
  /\ exists d' t a r,
       apply_financial_formulas (rt := blank_runtime) part_paid_draft "" = Some d'
       /\ d' !! "total_bill_amount" = Some (VNum t)
       /\ d' !! "approved_amount" = Some (VNum a)
       /\ d' !! "rejected_amount" = Some (VNum r)
       /\ (Qcabs (r - max0 (t - a)) ≤ 1)%Qc
       /\ (amount part_paid_draft "rejected_amount" = 0%Qc -> r = max0 (t - a)).
Proof.
  split; [reflexivity|]. split; [reflexivity|].
  apply (rejected_amount_reconciled (rt := blank_runtime) part_paid_draft ""
           eq_refl eq_refl); discriminate.
Defined.

(** The same draft carries no claimed amount: the returned one is the
    bill. *)
Lemma part_paid_claim_amount :
  dict_empty part_paid_draft = false
  /\ dates_well_typed part_paid_draft = true
  /\ exists d' t c,
       apply_financial_formulas (rt := blank_runtime) part_paid_draft "" = Some d'
       /\ d' !! "total_bill_amount" = Some (VNum t)
       /\ d' !! "claim_amount" = Some (VNum c)
       /\ c = (if decide (amount part_paid_draft "claim_amount" = 0%Qc) then t
               else amount part_paid_draft "claim_amount")
       /\ (c = 0%Qc -> t = 0%Qc).
Proof.
  split; [reflexivity|]. split; [reflexivity|].
  apply (claim_amount_backfilled (rt := blank_runtime) part_paid_draft ""
           eq_refl eq_refl).
Defined.

(** The claim type of the sample draft comes back as it went in. *)
Lemma part_paid_claim_type_kept :
  dict_empty part_paid_draft = false
  /\ dates_well_typed part_paid_draft = true
  /\ exists d',
       apply_financial_formulas (rt := blank_runtime) part_paid_draft "" = Some d'
       /\ d' !! "claim_type" = Some (VStr "Cashless").
Proof.
  split; [reflexivity|]. split; [reflexivity|].
  destruct (reconciliation_frame (rt := blank_runtime) part_paid_draft ""
              eq_refl eq_refl) as (d' & Hd' & Hframe).
  exists d'. split; [exact Hd'|].
  rewrite Hframe; [reflexivity|..];
    (intros Hk; apply (bool_decide_pack _) in Hk; revert Hk; by vm_compute).
Defined.

(** Remarks that read N/A come back as [None]; the insurer's name stays. *)
Lemma placeholder_remarks_cleaned :
  dict_empty placeholder_remarks_draft = false
  /\ dates_well_typed placeholder_remarks_draft = true
  /\ exists d',
       apply_financial_formulas (rt := blank_runtime)
         placeholder_remarks_draft "" = Some d'
       /\ d' !! "remarks" = Some VNone
       /\ d' !! "insurance_company" = Some (VStr "Star Health").
Proof.
  split; [reflexivity|]. split; [reflexivity|].
  destruct (reconciliation_cleans_text (rt := blank_runtime)
              placeholder_remarks_draft "" eq_refl eq_refl)
    as (d' & Hd' & Hclean).
  exists d'. split; [exact Hd'|]. split.
  - destruct (Hclean "remarks") as [-> _]; [solve_key|reflexivity].
  - destruct (Hclean "insurance_company") as [-> _]; [solve_key|reflexivity].
Defined.

(** The sample draft of Asha Rao is valid: its name has letters and two
    characters or more. *)
Lemma approved_draft_valid :
  dict_empty approved_draft = false
  /\ get approved_draft "patient_name" = VStr "Asha Rao"
  /\ validate_extraction (rt := blank_runtime) approved_draft = true.
Proof.
  split; [reflexivity|]. split; [reflexivity|].
  apply (proj2 (validate_extraction_names (rt := blank_runtime)
                  approved_draft eq_refl) "Asha Rao" eq_refl); [done|].
  split; [vm_compute; lia|reflexivity].
Defined.

(** The local model says Approved about a text with RTGS in it: the status
    stays Approved. *)
Lemma local_model_not_overridden :
  payment_advice_detected (Str.lower "RTGS credit received") = true
  /\ exists r,
       extract_claim_data (rt := blank_runtime) (local_only approved_draft)
         "RTGS credit received" = Returned (Some r)
       /\ r !! "claim_status" = Some (VStr "Approved").
Proof.
  split; [reflexivity|].
  apply (local_model_status_kept (rt := blank_runtime)
           (local_only approved_draft) "RTGS credit received" approved_draft);
    [by vm_compute|reflexivity..].
Defined.

(** A primary answer with a numeric claim date counts for nothing. *)
Lemma numeric_date_reply_falls_back :
  dict_empty numeric_date_draft = false
  /\ dates_well_typed numeric_date_draft = false
  /\ extract_claim_data (rt := blank_runtime) (primary_only numeric_date_draft)
       "claim received"
     = extract_claim_data (rt := blank_runtime) no_backends "claim received".
Proof.
  split; [reflexivity|]. split; [reflexivity|].
  apply (ill_typed_reply_falls_back (rt := blank_runtime)
           (primary_only numeric_date_draft) "claim received"
           numeric_date_draft); reflexivity.
Defined.
